(** * The Inngest comm handler: dispatcher, step invoker, registration body,
      signing-key adoption and error transport.

    A shallow embedding of [src/components/InngestCommHandler.ts],
    [src/helpers/errors.ts] and [src/deno/fresh.ts].

    JavaScript values are finite trees ([JsValue]); a computation that may
    throw is a [Completion]; the mutable fields of a handler instance are
    threaded explicitly.  [await] is sequential in every function modelled
    here, so promises are read as the completions they settle to.  Writes to
    the console are not observable in any response and are left out. *)

From Stdlib Require Import ZArith String Ascii List Bool Lia DecimalString.
Import ListNotations.
Local Open Scope string_scope.
Set Warnings "-register-all".

(* ------------------------------------------------------------------ *)
(** ** JavaScript values *)

(** Numbers are restricted to the integers JavaScript prints in decimal
    notation.  Functions, symbols, cyclic objects and objects with a [toJSON]
    method are outside the model; [JBigInt] stands for the values
    [JSON.stringify] refuses.  An object is the list of
    its own enumerable properties in insertion order.  [JError] is an instance
    of [Error]: [name], [message] and [stack] are not enumerable, [props] are
    the enumerable properties added to it. *)
Inductive JsValue : Type :=
| JUndefined
| JNull
| JBool (b : bool)
| JNum (n : Z)
| JBigInt (n : Z)
| JStr (s : string)
| JArr (items : list JsValue)
| JObj (props : list (string * JsValue))
| JError (name message : string) (stack : option string)
         (props : list (string * JsValue)).

Definition Props : Type := list (string * JsValue).

Fixpoint prop_get (k : string) (ps : Props) : option JsValue :=
  match ps with
  | [] => None
  | (k', v) :: rest => if String.eqb k k' then Some v else prop_get k rest
  end.

(** [o[k] = v] on the property list: an existing key keeps its place. *)
Fixpoint prop_set (k : string) (v : JsValue) (ps : Props) : Props :=
  match ps with
  | [] => [(k, v)]
  | (k', v') :: rest =>
      if String.eqb k k' then (k', v) :: rest else (k', v') :: prop_set k v rest
  end.

Fixpoint prop_delete (k : string) (ps : Props) : Props :=
  match ps with
  | [] => []
  | (k', v') :: rest =>
      if String.eqb k k' then prop_delete k rest else (k', v') :: prop_delete k rest
  end.

(** Own enumerable properties, what [{...v}] and zod's passthrough copy. *)
Definition enumerable_props (v : JsValue) : Props :=
  match v with
  | JObj ps => ps
  | JError _ _ _ ps => ps
  | _ => []
  end.

(** [Object.prototype.hasOwnProperty.call(v, k)] together with the value
    found; [None] when [v] has no own property [k].  On [null] and
    [undefined] the call throws, see [isSerializedError]. *)
Definition own_property (v : JsValue) (k : string) : option JsValue :=
  match v with
  | JObj ps => prop_get k ps
  | JError _ message stack ps =>
      if String.eqb k "message" then Some (JStr message)
      else if String.eqb k "stack" then
             match stack with Some s => Some (JStr s) | None => prop_get k ps end
           else prop_get k ps
  | _ => None
  end.

(** Property read [v[k]] for the keys used below, none of which lives on a
    prototype; a missing property reads as [undefined]. *)
Definition js_get (v : JsValue) (k : string) : JsValue :=
  match own_property v k with
  | Some x => x
  | None => JUndefined
  end.

(** Truthiness of a [string | undefined]. *)
Definition truthy_str (s : option string) : bool :=
  match s with
  | Some x => negb (String.eqb x "")
  | None => false
  end.

(** [s || d] for a [string | undefined]. *)
Definition str_or (s : option string) (d : string) : string :=
  if truthy_str s then match s with Some x => x | None => d end else d.

(* ------------------------------------------------------------------ *)
(** ** [JSON.stringify] *)

Definition dquote : string := String (ascii_of_nat 34) EmptyString.
Definition backslash : string := String (ascii_of_nat 92) EmptyString.

Definition hex_digit (n : nat) : string :=
  String (ascii_of_nat (if Nat.ltb n 10 then 48 + n else 87 + n)) EmptyString.

(** One code unit inside a JSON string literal. *)
Definition escape_char (c : ascii) : string :=
  let n := nat_of_ascii c in
  if Nat.eqb n 34 then backslash ++ dquote
  else if Nat.eqb n 92 then backslash ++ backslash
  else if Nat.eqb n 8 then backslash ++ "b"
  else if Nat.eqb n 9 then backslash ++ "t"
  else if Nat.eqb n 10 then backslash ++ "n"
  else if Nat.eqb n 12 then backslash ++ "f"
  else if Nat.eqb n 13 then backslash ++ "r"
  else if Nat.ltb n 32 then
         backslash ++ "u00" ++ hex_digit (Nat.div n 16) ++ hex_digit (Nat.modulo n 16)
       else String c EmptyString.

Fixpoint escape_string (s : string) : string :=
  match s with
  | EmptyString => EmptyString
  | String c rest => escape_char c ++ escape_string rest
  end.

Definition quote (s : string) : string := dquote ++ escape_string s ++ dquote.

Definition string_of_Z (n : Z) : string := NilZero.string_of_int (Z.to_int n).

Fixpoint join (sep : string) (l : list string) : string :=
  match l with
  | [] => ""
  | [x] => x
  | x :: rest => x ++ sep ++ join sep rest
  end.

(** What [JSON.stringify] does with a value: a text, [undefined], or a
    [TypeError]. *)
Inductive JsonText : Type :=
| Text (s : string)
| NoText
| Unserializable.

Fixpoint stringify (v : JsValue) : JsonText :=
  let members :=
    fix members (ps : Props) : option (list string) :=
      match ps with
      | [] => Some []
      | (k, x) :: rest =>
          match stringify x with
          | Unserializable => None
          | NoText => members rest
          | Text s =>
              match members rest with
              | Some l => Some ((quote k ++ ":" ++ s) :: l)
              | None => None
              end
          end
      end in
  match v with
  | JUndefined => NoText
  | JNull => Text "null"
  | JBool true => Text "true"
  | JBool false => Text "false"
  | JNum n => Text (string_of_Z n)
  | JBigInt _ => Unserializable
  | JStr s => Text (quote s)
  | JArr items =>
      let elements :=
        fix elements (l : list JsValue) : option (list string) :=
          match l with
          | [] => Some []
          | x :: rest =>
              match stringify x with
              | Unserializable => None
              | NoText =>
                  match elements rest with
                  | Some l' => Some ("null" :: l')
                  | None => None
                  end
              | Text s =>
                  match elements rest with
                  | Some l' => Some (s :: l')
                  | None => None
                  end
              end
          end in
      match elements items with
      | Some l => Text ("[" ++ join "," l ++ "]")
      | None => Unserializable
      end
  | JObj ps =>
      match members ps with
      | Some l => Text ("{" ++ join "," l ++ "}")
      | None => Unserializable
      end
  | JError _ _ _ ps =>
      match members ps with
      | Some l => Text ("{" ++ join "," l ++ "}")
      | None => Unserializable
      end
  end.

(** A template literal prints [undefined] by name. *)
Definition template_text (t : option string) : string :=
  match t with
  | Some s => s
  | None => "undefined"
  end.

(* ------------------------------------------------------------------ *)
(** ** Completions *)

Inductive Completion (A : Type) : Type :=
| Returned (a : A)
| Thrown (e : JsValue).
Arguments Returned {A} a.
Arguments Thrown {A} e.

Definition bind {A B : Type} (c : Completion A) (k : A -> Completion B) : Completion B :=
  match c with
  | Returned a => k a
  | Thrown e => Thrown e
  end.

Definition try_catch {A : Type} (c : Completion A) (handler : JsValue -> Completion A)
  : Completion A :=
  match c with
  | Returned a => Returned a
  | Thrown e => handler e
  end.

Notation "x <- c ;; k" := (bind c (fun x => k))
  (at level 61, c at next level, right associativity).
Notation "' pat <- c ;; k" := (bind c (fun x => match x with pat => k end))
  (at level 61, pat pattern, c at next level, right associativity).

(* ------------------------------------------------------------------ *)
(** ** Data of the comm handler *)

(** [Record<string, string | undefined>]; a variable bound to [undefined]
    reads like an absent one. *)
Definition Env : Type := list (string * string).

Fixpoint env_get (env : Env) (k : string) : option string :=
  match env with
  | [] => None
  | (k', v) :: rest => if String.eqb k k' then Some v else env_get rest k
  end.

Record RequestInit : Type := {
  init_method : string;
  init_body : option string;
  init_headers : list (string * string);
  init_redirect : string
}.

Record FetchResponse : Type := {
  res_status : Z;
  res_statusText : string;
  res_json : Completion JsValue
}.

Definition FetchT : Type := string -> RequestInit -> Completion FetchResponse.

(** [interface ActionResponse].  [body] is declared a string; it is
    [undefined] ([None]) where [JSON.stringify] yields [undefined]. *)
Record ActionResponse : Type := {
  status : Z;
  headers : list (string * string);
  body : option string
}.

(** [StepRunResponse] as [handleAction] reads it: [error] when the status is
    500, [body] otherwise. *)
Record StepRunResponse : Type := {
  step_status : Z;
  step_body : JsValue;
  step_error : option string
}.

Inductive ZodSchema : Type :=
| RunPayloadSchema
| RegisterResSchema
| FreshQuerySchema.

Set Implicit Arguments.

(** The part of [InngestFunction] the handler calls. *)
Record InngestFunction (URL : Type) : Type := {
  fn_id : string -> string;
  runFn : JsValue -> JsValue -> Completion (bool * JsValue);
  getConfig : URL -> string -> JsValue
}.

(** What the handler imports from files that are not part of this
    development ([helpers/consts], [helpers/devserver], [helpers/scalar],
    [helpers/env], [landing], [version]) and from its libraries and runtime
    ([URL], [hash.js], [zod], [serialize-error-cjs], [cross-fetch], the stack
    an [Error] captures when it is built). *)
Record Platform (URL : Type) : Type := {
  envKeys_SigningKey : string;
  envKeys_LandingPage : string;
  envKeys_DevServerUrl : string;
  queryKeys_Introspect : string;
  queryKeys_FnId : string;
  queryKeys_StepId : string;
  version : string;
  landing : string;
  strBoolean : option string -> option bool;
  devServerUrl : option string -> option string -> Completion URL;
  devServerAvailable : option string -> FetchT -> Completion bool;
  devServerHost : unit -> option string;
  cross_fetch : FetchT;
  (* URL *)
  url_parse : string -> option string -> Completion URL;
  url_href : URL -> string;
  url_pathname : URL -> string;
  url_search : URL -> string;
  url_set_pathname : URL -> string -> URL;
  url_has_param : URL -> string -> bool;
  url_get_param : URL -> string -> option string;
  url_delete_param : URL -> string -> URL;
  (* hash.js: [sha256().update(s).digest("hex")], and the same with
     [update(s, "hex")] *)
  sha256_hex : string -> string;
  sha256_hex_of_hex : string -> string;
  (* the [stack] of [new C(message)], by constructor name and message *)
  captureStack : string -> string -> option string;
  (* the message, stack and enumerable properties of the [ZodError] a
     failed [parse] throws *)
  zodFailure : ZodSchema -> JsValue -> string * option string * Props;
  cjsSerializeError : JsValue -> Completion Props
}.

Record InngestCommHandler (URL : Type) : Type := {
  name : string;
  frameworkName : string;
  signingKey : option string;
  _isProd : bool;
  handler_headers : list (string * string);
  handler_fetch : FetchT;
  showLandingPage : option bool;
  serveHost : option string;
  servePath : option string;
  fns : list (string * InngestFunction URL);
  inngestRegisterUrl : URL
}.

(** [Inngest] as the constructor reads it. *)
Record Inngest : Type := { inngest_name : string }.

Record RegisterOptions : Type := {
  opt_inngestRegisterUrl : option string;
  opt_fetch : option FetchT;
  opt_landingPage : option bool;
  opt_signingKey : option string;
  opt_serveHost : option string;
  opt_servePath : option string
}.

(** The variants of [HandlerAction]. *)
Record RunAction (URL : Type) : Type := {
  run_fnId : string;
  run_data : JsValue;
  run_env : Env;
  run_isProduction : bool;
  run_url : URL
}.

Record ViewAction (URL : Type) : Type := {
  view_env : Env;
  view_url : URL;
  view_isIntrospection : bool;
  view_isProduction : bool
}.

Record RegisterAction (URL : Type) : Type := {
  register_env : Env;
  register_url : URL;
  register_isProduction : bool
}.

Record ErrorAction (URL : Type) : Type := {
  error_data : list (string * string);
  error_env : Env;
  error_isProduction : bool;
  error_url : URL
}.

Record BadMethodAction (URL : Type) : Type := {
  bad_env : Env;
  bad_isProduction : bool;
  bad_url : URL
}.

Inductive HandlerAction (URL : Type) : Type :=
| ActError (a : ErrorAction URL)
| ActView (a : ViewAction URL)
| ActRegister (a : RegisterAction URL)
| ActRun (a : RunAction URL)
| ActBadMethod (a : BadMethodAction URL).

(** What a [Handler] returns: one probe for each of [run], [view] and
    [register].  A probe answers with the action's fields or with
    [undefined], or throws. *)
Record Actions (URL : Type) : Type := {
  run : Completion (option (RunAction URL));
  view : Completion (option (ViewAction URL));
  register_probe : Completion (option (RegisterAction URL))
}.

Unset Implicit Arguments.
Arguments ActError {URL} a.
Arguments ActView {URL} a.
Arguments ActRegister {URL} a.
Arguments ActRun {URL} a.
Arguments ActBadMethod {URL} a.

(** The probes an adapter builds for a classified action, as the mapped type
    [Handler] spells them: the probe [K] yields
    [Omit<Extract<HandlerAction, { action: K }>, "action">] when the action
    is [K] and [undefined] otherwise.  [Handler] has probes for [run],
    [register] and [view] only. *)
Definition actions_of {URL : Type} (a : HandlerAction URL) : Actions URL :=
  {| run := Returned (match a with ActRun r => Some r | _ => None end);
     view := Returned (match a with ActView v => Some v | _ => None end);
     register_probe :=
       Returned (match a with ActRegister r => Some r | _ => None end) |}.

Definition set_signingKey {URL : Type} (k : option string)
  (h : InngestCommHandler URL) : InngestCommHandler URL :=
  {| name := name h;
     frameworkName := frameworkName h;
     signingKey := k;
     _isProd := _isProd h;
     handler_headers := handler_headers h;
     handler_fetch := handler_fetch h;
     showLandingPage := showLandingPage h;
     serveHost := serveHost h;
     servePath := servePath h;
     fns := fns h;
     inngestRegisterUrl := inngestRegisterUrl h |}.

Definition set_isProd {URL : Type} (b : bool)
  (h : InngestCommHandler URL) : InngestCommHandler URL :=
  {| name := name h;
     frameworkName := frameworkName h;
     signingKey := signingKey h;
     _isProd := b;
     handler_headers := handler_headers h;
     handler_fetch := handler_fetch h;
     showLandingPage := showLandingPage h;
     serveHost := serveHost h;
     servePath := servePath h;
     fns := fns h;
     inngestRegisterUrl := inngestRegisterUrl h |}.

(** [this.fns[k]]: the table is kept in insertion order; ids that name a
    property of [Object.prototype] are outside the model. *)
Fixpoint fns_get {URL : Type} (k : string) (l : list (string * InngestFunction URL))
  : option (InngestFunction URL) :=
  match l with
  | [] => None
  | (k', f) :: rest => if String.eqb k k' then Some f else fns_get k rest
  end.

Definition header_get (k : string) (hs : list (string * string)) : option string :=
  env_get hs k.

(* ------------------------------------------------------------------ *)
(** ** helpers/errors.ts and the handler's methods *)

Section CommHandler.

Context {URL : Type}.
Variable P : Platform URL.

Definition new_Error (ctor message : string) : JsValue :=
  JError ctor message (captureStack P ctor message) [].

(** [JSON.stringify(v)]: a text, [undefined], or a thrown [TypeError]. *)
Definition JSON_stringify (v : JsValue) : Completion (option string) :=
  match stringify v with
  | Text s => Returned (Some s)
  | NoText => Returned None
  | Unserializable =>
      Thrown (new_Error "TypeError" "Do not know how to serialize a BigInt")
  end.

(** The [ZodError] of a failed [parse]. *)
Definition ZodError (schema : ZodSchema) (input : JsValue) : JsValue :=
  let '(message, stack, props) := zodFailure P schema input in
  JError "ZodError" message stack props.

(** *** errors.ts *)

Definition SERIALIZED_KEY : string := "__serialized".
Definition SERIALIZED_VALUE : JsValue := JBool true.

(** [x === SERIALIZED_VALUE]. *)
Definition is_SERIALIZED_VALUE (x : JsValue) : bool :=
  match x with
  | JBool true => true
  | _ => false
  end.

Definition hasOwnProperty_call (v : JsValue) (k : string) : Completion bool :=
  match v with
  | JUndefined | JNull =>
      Thrown (new_Error "TypeError" "Cannot convert undefined or null to object")
  | _ => Returned (match own_property v k with Some _ => true | None => false end)
  end.

Definition isSerializedError (value : JsValue) : bool :=
  match
    (has <- hasOwnProperty_call value SERIALIZED_KEY;;
     Returned (has && is_SERIALIZED_VALUE (js_get value SERIALIZED_KEY)))
  with
  | Returned b => b
  | Thrown _ => false
  end.

Definition serializeError (subject : JsValue) : Completion JsValue :=
  if isSerializedError subject then Returned subject
  else
    ps <- cjsSerializeError P subject;;
    Returned (JObj (prop_set SERIALIZED_KEY SERIALIZED_VALUE ps)).

(** *** InngestCommHandler.ts *)

Definition Handler_t : Type := InngestCommHandler URL.

(** The reducer of the constructor: a second function with an id already
    taken is refused. *)
Fixpoint collect_fns (appName : string) (functions : list (InngestFunction URL))
  (acc : list (string * InngestFunction URL))
  : Completion (list (string * InngestFunction URL)) :=
  match functions with
  | [] => Returned acc
  | fn :: rest =>
      let id := fn_id fn appName in
      match fns_get id acc with
      | Some _ =>
          Thrown (new_Error "Error"
                    ("Duplicate function ID " ++ dquote ++ id ++ dquote ++
                     "; please change a function's name or provide an explicit ID to avoid conflicts."))
      | None => collect_fns appName rest (acc ++ [(id, fn)])
      end
  end.

Definition constructor (framework : string) (appNameOrInngest : string + Inngest)
  (functions : list (InngestFunction URL)) (opts : RegisterOptions)
  : Completion Handler_t :=
  let appName :=
    match appNameOrInngest with
    | inl s => s
    | inr i => inngest_name i
    end in
  table <- collect_fns appName functions [];;
  url <- url_parse P (str_or (opt_inngestRegisterUrl opts)
                        "https://api.inngest.com/fn/register") None;;
  Returned
    {| name := appName;
       frameworkName := framework;
       signingKey := opt_signingKey opts;
       _isProd := false;
       handler_headers :=
         [("Content-Type", "application/json");
          ("User-Agent", "inngest-js:v" ++ version P ++ " (" ++ framework ++ ")")];
       handler_fetch :=
         match opt_fetch opts with
         | Some f => f
         | None => cross_fetch P
         end;
       showLandingPage := opt_landingPage opts;
       serveHost := opt_serveHost opts;
       servePath := opt_servePath opts;
       fns := table;
       inngestRegisterUrl := url |}.

Definition signkey_prefix (key : string) : string :=
  if String.prefix "signkey-test-" key then "signkey-test-"
  else if String.prefix "signkey-prod-" key then "signkey-prod-"
  else "".

Definition hashedSigningKey (h : Handler_t) : string :=
  match signingKey h with
  | None => ""
  | Some k =>
      if String.eqb k "" then ""
      else
        let prefix := signkey_prefix k in
        let key := String.substring (String.length prefix)
                     (String.length k - String.length prefix) k in
        prefix ++ sha256_hex_of_hex P key
  end.

Definition sdkHeader (h : Handler_t) : string * string * string :=
  ("inngest-", "js:v" ++ version P, " (" ++ frameworkName h ++ ")").

Definition sdkHeader_join (h : Handler_t) : string :=
  let '(prefix, v, suffix) := sdkHeader h in prefix ++ v ++ suffix.

Definition configs (h : Handler_t) (url : URL) : list JsValue :=
  map (fun entry => getConfig (snd entry) url (name h)) (fns h).

Definition reqUrl (h : Handler_t) (url : URL) : Completion URL :=
  let ret := url in
  let ret := if truthy_str (servePath h)
             then url_set_pathname P ret (str_or (servePath h) "")
             else ret in
  ret <- (if truthy_str (serveHost h)
          then url_parse P (url_pathname P ret ++ url_search P ret) (serveHost h)
          else Returned ret);;
  Returned (url_delete_param P ret (queryKeys_Introspect P)).

(** The body before the checksum is attached. *)
Definition registerFields (h : Handler_t) (url : URL) : Props :=
  [("url", JStr (url_href P url));
   ("deployType", JStr "ping");
   ("framework", JStr (frameworkName h));
   ("appName", JStr (name h));
   ("functions", JArr (configs h url));
   ("sdk", JStr (snd (fst (sdkHeader h))));
   ("v", JStr "0.1")].

Definition registerBody (h : Handler_t) (url : URL) : Completion JsValue :=
  let body := registerFields h url in
  text <- JSON_stringify (JObj body);;
  Returned (JObj (prop_set "hash"
                    (JStr (sha256_hex P (match text with Some s => s | None => "" end)))
                    body)).

Definition upsertSigningKeyFromEnv (h : Handler_t) (env : Env) : Handler_t :=
  if negb (truthy_str (signingKey h)) && truthy_str (env_get env (envKeys_SigningKey P))
  then set_signingKey (env_get env (envKeys_SigningKey P)) h
  else h.

Definition shouldShowLandingPage (h : Handler_t) (strEnvVar : option string) : bool :=
  match showLandingPage h with
  | Some b => b
  | None =>
      match strBoolean P strEnvVar with
      | Some b => b
      | None => true
      end
  end.

(** What zod's [z.object(...)] accepts as an object: arrays and [null] are
    refused. *)
Definition zod_is_object (v : JsValue) : bool :=
  match v with
  | JObj _ | JError _ _ _ _ => true
  | _ => false
  end.

(** [z.object({ event: z.object({}).passthrough(),
                steps: z.object({}).passthrough().optional().nullable() })
       .parse(data)], giving [event] and [steps]. *)
Definition parse_run_payload (data : JsValue) : Completion (JsValue * JsValue) :=
  let event := js_get data "event" in
  let steps := js_get data "steps" in
  let steps_ok :=
    match steps with
    | JUndefined | JNull => true
    | _ => zod_is_object steps
    end in
  if zod_is_object data && zod_is_object event && steps_ok then
    Returned (JObj (enumerable_props event),
              match steps with
              | JUndefined => JUndefined
              | JNull => JNull
              | _ => JObj (enumerable_props steps)
              end)
  else Thrown (ZodError RunPayloadSchema data).

(** [steps || {}]. *)
Definition steps_or_empty (steps : JsValue) : JsValue :=
  match steps with
  | JUndefined | JNull => JObj []
  | _ => steps
  end.

Definition runStep (h : Handler_t) (functionId stepId : string) (data : JsValue)
  : Completion StepRunResponse :=
  try_catch
    (fn <- match fns_get functionId (fns h) with
           | Some fn => Returned fn
           | None =>
               Thrown (new_Error "Error"
                         ("Could not find function with ID " ++
                          dquote ++ functionId ++ dquote))
           end;;
     ' (event, steps) <- parse_run_payload data;;
     ret <- runFn fn (JObj [("event", event)]) (steps_or_empty steps);;
     let isOp := fst ret in
     if isOp then
       Returned {| step_status := 206; step_body := snd ret; step_error := None |}
     else
       Returned {| step_status := 200; step_body := snd ret; step_error := None |})
    (fun err =>
       match err with
       | JError _ message stack _ =>
           Returned {| step_status := 500; step_body := JUndefined;
                       step_error := Some (str_or stack message) |}
       | _ =>
           text <- JSON_stringify err;;
           Returned {| step_status := 500; step_body := JUndefined;
                       step_error := Some ("Unknown error: " ++ template_text text) |}
       end).

(** [registerResSchema.parse(data)], giving [status], [error] and [skipped]. *)
Definition parse_registerRes (data : JsValue) : Completion (Z * string * bool) :=
  let bad := Thrown (ZodError RegisterResSchema data) in
  if zod_is_object data then
    match js_get data "status", js_get data "skipped", js_get data "error" with
    | (JUndefined | JNum _) as st, (JUndefined | JBool _) as sk,
      (JUndefined | JStr _) as er =>
        Returned (match st with JNum n => n | _ => 200%Z end,
                  match er with JStr s => s | _ => "Successfully registered" end,
                  match sk with JBool b => b | _ => false end)
    | _, _, _ => bad
    end
  else bad.

Definition register (h : Handler_t) (url : URL) (devServerHost : option string)
  : Completion (Z * string) :=
  body <- registerBody h url;;
  registerURL <-
    (if negb (_isProd h) then
       hasDevServer <- devServerAvailable P devServerHost (handler_fetch h);;
       if (hasDevServer : bool)
       then devServerUrl P devServerHost (Some "/fn/register")
       else Returned (inngestRegisterUrl h)
     else Returned (inngestRegisterUrl h));;
  match
    (text <- JSON_stringify body;;
     handler_fetch h (url_href P registerURL)
       {| init_method := "POST";
          init_body := text;
          init_headers :=
            handler_headers h ++ [("Authorization", "Bearer " ++ hashedSigningKey h)];
          init_redirect := "follow" |})
  with
  | Thrown err =>
      Returned (500%Z,
                "Failed to register" ++
                match err with
                | JError _ message _ _ => "; " ++ message
                | _ => ""
                end)
  | Returned res =>
      let data := match res_json res with
                  | Returned d => d
                  | Thrown _ => JObj []
                  end in
      ' (st, error, skipped) <- parse_registerRes data;;
      Returned (st, error)
  end.

Definition json_headers (hdrs : list (string * string)) : list (string * string) :=
  hdrs ++ [("Content-Type", "application/json")].

(** The [try] block of [handleAction]: the handler after the key adoption,
    and the response returned from inside the block, [None] when control
    leaves the block without returning, or the value thrown. *)
Definition handleAction_try (h : Handler_t) (hdrs : list (string * string))
  (actions : Actions URL) : Handler_t * Completion (option ActionResponse) :=
  match run actions with
  | Thrown e => (h, Thrown e)
  | Returned (Some runRes) =>
      let h := upsertSigningKeyFromEnv h (run_env runRes) in
      (h,
       stepRes <- runStep h (run_fnId runRes) "step" (run_data runRes);;
       if Z.eqb (step_status stepRes) 500 then
         Returned (Some {| status := 500;
                           body := Some (str_or (step_error stepRes) "");
                           headers := json_headers hdrs |})
       else
         text <- JSON_stringify (step_body stepRes);;
         Returned (Some {| status := step_status stepRes;
                           body := text;
                           headers := json_headers hdrs |}))
  | Returned None =>
  match view actions with
  | Thrown e => (h, Thrown e)
  | Returned (Some viewRes) =>
      let h := upsertSigningKeyFromEnv h (view_env viewRes) in
      let show :=
        shouldShowLandingPage h (env_get (view_env viewRes) (envKeys_LandingPage P)) in
      (h,
       if _isProd h || negb show then
         Returned (Some {| status := 405; body := Some ""; headers := hdrs |})
       else if view_isIntrospection viewRes then
         url <- reqUrl h (view_url viewRes);;
         reg <- registerBody h url;;
         dev <- devServerUrl P (env_get (view_env viewRes) (envKeys_DevServerUrl P)) None;;
         let introspection :=
           prop_set "hasSigningKey" (JBool (truthy_str (signingKey h)))
             (prop_set "devServerURL" (JStr (url_href P dev)) (enumerable_props reg)) in
         text <- JSON_stringify (JObj introspection);;
         Returned (Some {| status := 200; body := text; headers := json_headers hdrs |})
       else
         Returned (Some {| status := 200;
                           body := Some (landing P);
                           headers := hdrs ++ [("Content-Type", "text/html; charset=utf-8")] |}))
  | Returned None =>
  match register_probe actions with
  | Thrown e => (h, Thrown e)
  | Returned (Some registerRes) =>
      let h := upsertSigningKeyFromEnv h (register_env registerRes) in
      (h,
       url <- reqUrl h (register_url registerRes);;
       ' (st, message) <-
         register h url (env_get (register_env registerRes) (envKeys_DevServerUrl P));;
       text <- JSON_stringify (JObj [("message", JStr message)]);;
       Returned (Some {| status := st; body := text; headers := json_headers hdrs |}))
  | Returned None => (h, Returned None)
  end end end.

Definition handleAction (h : Handler_t) (actions : Actions URL)
  : Handler_t * Completion ActionResponse :=
  let hdrs := [("x-inngest-sdk", sdkHeader_join h)] in
  let '(h', tried) := handleAction_try h hdrs actions in
  (h',
   match tried with
   | Returned (Some res) => Returned res
   | Returned None => Returned {| status := 405; body := Some ""; headers := hdrs |}
   | Thrown err =>
       text <- JSON_stringify err;;
       Returned {| status := 500; body := text; headers := json_headers hdrs |}
   end).

(** [createHandler] for a [handler] and a [transformRes]. *)
Definition createHandler {Args Res : Type}
  (handler : Args -> Completion (Actions URL))
  (transformRes : ActionResponse -> Args -> Completion Res)
  (h : Handler_t) (args : Args) : Handler_t * Completion Res :=
  match handler args with
  | Thrown e => (h, Thrown e)
  | Returned actions =>
      let '(h', actionRes) := handleAction h actions in
      (h', res <- actionRes;; transformRes res args)
  end.

(** One instance serving requests one after the other. *)
Fixpoint dispatch_all (h : Handler_t) (requests : list (Actions URL)) : Handler_t :=
  match requests with
  | [] => h
  | actions :: rest => dispatch_all (fst (handleAction h actions)) rest
  end.

End CommHandler.

(* ------------------------------------------------------------------ *)
(** ** deno/fresh.ts *)

Module DenoFresh.

(** The [Request] as [createHandler] reads it. *)
Record Request : Type := {
  req_url : string;
  req_host : option string;
  req_method : string;
  req_json : Completion JsValue
}.

Section Fresh.

Context {URL : Type}.
Variable P : Platform URL.

(** [fresh.ts] extends the comm handler exported by [../express], whose
    [reqUrl] takes the request's URL and a host; that method is not part of
    this development. *)
Variable reqUrl_of_host : InngestCommHandler URL -> string -> string -> Completion URL.

(** [z.object({ fnId: z.string().min(1), stepId: z.string().min(1) }).parse(...)] *)
Definition parse_query (fnId stepId : option string) : Completion (string * string) :=
  match fnId, stepId with
  | Some f, Some s =>
      if negb (String.eqb f "") && negb (String.eqb s "") then Returned (f, s)
      else Thrown (ZodError P FreshQuerySchema
                     (JObj [("fnId", JStr f); ("stepId", JStr s)]))
  | _, _ =>
      Thrown (ZodError P FreshQuerySchema
                (JObj [("fnId", match fnId with Some f => JStr f | None => JNull end);
                       ("stepId", match stepId with Some s => JStr s | None => JNull end)]))
  end.

Definition is_production (env : Env) (k : string) : bool :=
  match env_get env k with
  | Some v => String.eqb v "production"
  | None => false
  end.

(** The function [createHandler] returns; a [Response] is written as an
    [ActionResponse], [new Response(null, ...)] having no body. *)
Definition createHandler (h : InngestCommHandler URL) (req : Request) (env : Env)
  : InngestCommHandler URL * Completion ActionResponse :=
  let hdrs := [("x-inngest-sdk", sdkHeader_join P h)] in
  match
    (u <- reqUrl_of_host h (req_url req) ("https://" ++ str_or (req_host req) "");;
     Returned (url_has_param P u (queryKeys_Introspect P),
               url_delete_param P u (queryKeys_Introspect P)))
  with
  | Thrown err =>
      (h, text <- JSON_stringify P err;;
          Returned {| status := 500; headers := hdrs; body := text |})
  | Returned (isIntrospection, reqUrl) =>
      let h :=
        if negb (truthy_str (signingKey h)) &&
           truthy_str (env_get env (envKeys_SigningKey P))
        then set_signingKey (env_get env (envKeys_SigningKey P)) h
        else h in
      let h :=
        set_isProd (is_production env "VERCEL_ENV" || is_production env "CONTEXT" ||
                    is_production env "ENVIRONMENT") h in
      let not_allowed :=
        Returned {| status := 405; headers := hdrs; body := None |} in
      (h,
       if String.eqb (req_method req) "GET" then
         let show :=
           shouldShowLandingPage P h (env_get env (envKeys_LandingPage P)) in
         if _isProd h || negb show then not_allowed
         else if (isIntrospection : bool) then
           reg <- registerBody P h reqUrl;;
           dev <- devServerUrl P (devServerHost P tt) None;;
           let introspection :=
             prop_set "hasSigningKey" (JBool (truthy_str (signingKey h)))
               (prop_set "devServerURL" (JStr (url_href P dev)) (enumerable_props reg)) in
           text <- JSON_stringify P (JObj introspection);;
           Returned {| status := 200; headers := hdrs; body := text |}
         else
           Returned {| status := 200;
                       headers := hdrs ++ [("content-type", "text/html; charset=utf-8")];
                       body := Some (landing P) |}
       else if String.eqb (req_method req) "PUT" then
         ' (st, message) <- register P h reqUrl (env_get env (envKeys_DevServerUrl P));;
         text <- JSON_stringify P (JObj [("message", JStr message)]);;
         Returned {| status := st; headers := hdrs; body := text |}
       else if String.eqb (req_method req) "POST" then
         ' (fnId, stepId) <-
           parse_query (url_get_param P reqUrl (queryKeys_FnId P))
                       (url_get_param P reqUrl (queryKeys_StepId P));;
         data <- req_json req;;
         stepRes <- runStep P h fnId stepId data;;
         if Z.eqb (step_status stepRes) 500 then
           text <- JSON_stringify P
                     (match step_error stepRes with
                      | Some e => JStr e
                      | None => JUndefined
                      end);;
           Returned {| status := step_status stepRes; headers := hdrs; body := text |}
         else
           text <- JSON_stringify P (step_body stepRes);;
           Returned {| status := step_status stepRes; headers := hdrs; body := text |}
       else not_allowed)
  end.

End Fresh.

End DenoFresh.

(* ------------------------------------------------------------------ *)
(** ** helpers/errors.ts, continued *)

Section Deserialize.

Context {URL : Type}.
Variable P : Platform URL.

(** [deserializeError] of [serialize-error-cjs]. *)
Variable cjsDeserializeError : JsValue -> Completion JsValue.

(** [requiredFields.every((field) => hasOwnProperty.call(subject, field))] *)
Fixpoint every_own (subject : JsValue) (fields : list string) : Completion bool :=
  match fields with
  | [] => Returned true
  | field :: rest =>
      has <- hasOwnProperty_call P subject field;;
      if (has : bool) then every_own subject rest else Returned false
  end.

(** The [Error] built in the [catch] clause, its stack cleared. *)
Definition could_not_reserialize : JsValue :=
  JError "Error" "Unknown error; could not reserialize" None [].

Definition deserializeError (subject : JsValue) : JsValue :=
  match
    (hasRequiredFields <- every_own subject ["name"; "message"];;
     if (hasRequiredFields : bool) then cjsDeserializeError subject
     else Thrown (new_Error P "Error" ""))
  with
  | Returned e => e
  | Thrown _ => could_not_reserialize
  end.

End Deserialize.

(** *** prettyError *)

Module Pretty.

(** The colour functions of [chalk] that [prettyError] uses. *)
Record Chalk : Type := {
  red : string -> string;
  yellow : string -> string;
  bold_underline : string -> string
}.

Inductive ErrCode : Type :=
| ASYNC_DETECTED_DURING_MEMOIZATION
| ASYNC_DETECTED_AFTER_MEMOIZATION
| STEP_USED_AFTER_ASYNC
| NESTING_STEPS.

Definition ErrCode_text (c : ErrCode) : string :=
  match c with
  | ASYNC_DETECTED_DURING_MEMOIZATION => "ASYNC_DETECTED_DURING_MEMOIZATION"
  | ASYNC_DETECTED_AFTER_MEMOIZATION => "ASYNC_DETECTED_AFTER_MEMOIZATION"
  | STEP_USED_AFTER_ASYNC => "STEP_USED_AFTER_ASYNC"
  | NESTING_STEPS => "NESTING_STEPS"
  end.

Inductive MessageType : Type := type_error | type_warn.

(** [interface PrettyError]; [stack] is [true] or absent. *)
Record PrettyError : Type := {
  type : option MessageType;
  whatHappened : string;
  reassurance : option string;
  why : option string;
  consequences : option string;
  toFixNow : option (string + list string);
  otherwise : option string;
  stack : bool;
  code : option ErrCode
}.

Definition nl : string := String (ascii_of_nat 10) EmptyString.
Definition tab : string := String (ascii_of_nat 9) EmptyString.

Fixpoint string_of_bytes (l : list nat) : string :=
  match l with
  | [] => EmptyString
  | b :: rest => String (ascii_of_nat b) (string_of_bytes rest)
  end.

(** The two icons, in UTF-8: U+274C, and U+26A0 U+FE0F. *)
Definition icon_error : string := string_of_bytes [226; 157; 140].
Definition icon_warn : string := string_of_bytes [226; 154; 160; 239; 184; 143].

Definition non_empty (s : string) : bool := negb (String.eqb s "").

(** [.filter(Boolean)] on strings and on [string | undefined]. *)
Definition filter_strings (l : list string) : list string := filter non_empty l.

Fixpoint filter_defined (l : list (option string)) : list string :=
  match l with
  | [] => []
  | Some s :: rest => if non_empty s then s :: filter_defined rest else filter_defined rest
  | None :: rest => filter_defined rest
  end.

(** [s.split(sep)] for a separator of one character. *)
Fixpoint split_on (sep : ascii) (s : string) : list string :=
  match s with
  | EmptyString => [EmptyString]
  | String c rest =>
      if Ascii.eqb c sep then EmptyString :: split_on sep rest
      else match split_on sep rest with
           | [] => [String c EmptyString]
           | x :: xs => String c x :: xs
           end
  end.

(** [.map((s, i) => `\t${i + 1}. ${s}`)], [i] counting from [from]. *)
Fixpoint number_steps (from : nat) (l : list string) : list string :=
  match l with
  | [] => []
  | s :: rest =>
      (tab ++ string_of_Z (Z.of_nat (from + 1)) ++ ". " ++ s) :: number_steps (S from) rest
  end.

Definition splitter : string := "=================================================".

Definition fix_intro : string :=
  "To fix this, you can take one of the following courses of action:".

Section PrettyError.

Variable chalk : Chalk.
(** [String.prototype.trim], and the [stack] of an [Error] built inside
    [prettyError]. *)
Variable trim : string -> string.
Variable current_stack : option string.

Definition icon_of (e : PrettyError) : string :=
  match type e with
  | Some type_warn => icon_warn
  | _ => icon_error
  end.

Definition colorFn_of (e : PrettyError) : string -> string :=
  match type e with
  | Some type_warn => yellow chalk
  | _ => red chalk
  end.

Definition header_of (e : PrettyError) : string :=
  let header := icon_of e ++ "  " ++ bold_underline chalk (trim (whatHappened e)) in
  if stack e then
    header ++ nl ++
    join nl (match current_stack with
             | Some s => filter_strings (tl (split_on (ascii_of_nat 10) s))
             | None => []
             end)
  else header.

Definition toFixNowStr_of (e : PrettyError) : string :=
  let toFixNowStr :=
    match toFixNow e with
    | Some (inr steps) => join nl (number_steps 0 (filter_strings (map trim steps)))
    | Some (inl s) => trim s
    | None => ""
    end in
  match toFixNow e with
  | Some (inr _) =>
      if non_empty toFixNowStr then fix_intro ++ nl ++ nl ++ toFixNowStr else toFixNowStr
  | _ => toFixNowStr
  end.

Definition body_of (e : PrettyError) : string :=
  let body :=
    join " " (filter_defined [option_map trim (reassurance e);
                              option_map trim (why e);
                              option_map trim (consequences e)]) in
  body ++ (if non_empty body then nl ++ nl ++ toFixNowStr_of e else toFixNowStr_of e).

Definition trailer_of (e : PrettyError) : string :=
  join " " (filter_defined [option_map trim (otherwise e)]).

Definition prettyError (e : PrettyError) : string :=
  let message :=
    join (nl ++ nl)
      (filter_strings
         [splitter; header_of e; body_of e; trailer_of e;
          match code e with
          | Some c => "Code: " ++ ErrCode_text c
          | None => ""
          end;
          splitter]) in
  colorFn_of e message.

Definition functionStoppedRunningErr (c : ErrCode) : string :=
  prettyError
    {| type := None;
       whatHappened := "Your function was stopped from running";
       reassurance := None;
       why := Some "We detected a mix of asynchronous logic, some using step tooling and some not.";
       consequences :=
         Some "This can cause unexpected behaviour when a function is paused and resumed and is therefore strongly discouraged; we stopped your function to ensure nothing unexpected happened!";
       toFixNow :=
         Some (inl "Ensure that your function is either entirely step-based or entirely non-step-based, by either wrapping all asynchronous logic in `step.run()` calls or by removing all `step.*()` calls.");
       otherwise :=
         Some "For more information on why step functions work in this manner, see https://www.inngest.com/docs/functions/multi-step#gotchas";
       stack := true;
       code := Some c |}.

End PrettyError.

End Pretty.

(* ------------------------------------------------------------------ *)
(** ** Notions used to state the properties *)

(** The raw payload of a run carries an [event] object. *)
Definition has_event_object (data : JsValue) : bool :=
  zod_is_object (js_get data "event").

(** A key is set when it is a non-empty string, the test
    [upsertSigningKeyFromEnv] and [hashedSigningKey] make. *)
Definition key_is_set {URL : Type} (h : InngestCommHandler URL) : bool :=
  truthy_str (signingKey h).

(** The content hash as the specification words it: the digest of the
    body's JSON form without the [hash] field.  To be compared with the
    [hash] that [registerBody] attaches. *)
Definition hash_excluding_itself {URL : Type} (P : Platform URL) (body : JsValue)
  : Completion string :=
  text <- JSON_stringify P (JObj (prop_delete "hash" (enumerable_props body)));;
  Returned (sha256_hex P (match text with Some s => s | None => "" end)).

(** The app's name as the constructor takes it from its second argument. *)
Definition app_name (appNameOrInngest : string + Inngest) : string :=
  match appNameOrInngest with
  | inl s => s
  | inr i => inngest_name i
  end.

(** The environment snapshot an action carries, and whether [Handler] has
    a probe for the action. *)
Definition action_env {URL : Type} (a : HandlerAction URL) : Env :=
  match a with
  | ActError e => error_env e
  | ActView v => view_env v
  | ActRegister r => register_env r
  | ActRun r => run_env r
  | ActBadMethod b => bad_env b
  end.

Definition has_probe {URL : Type} (a : HandlerAction URL) : bool :=
  match a with
  | ActView _ | ActRegister _ | ActRun _ => true
  | ActError _ | ActBadMethod _ => false
  end.

(** Two pieces of [register], by themselves: the URL the registration is
    posted to, and the request posted. *)
Definition register_target {URL : Type} (P : Platform URL) (h : InngestCommHandler URL)
  (devServerHost : option string) : Completion URL :=
  if negb (_isProd h) then
    hasDevServer <- devServerAvailable P devServerHost (handler_fetch h);;
    if (hasDevServer : bool)
    then devServerUrl P devServerHost (Some "/fn/register")
    else Returned (inngestRegisterUrl h)
  else Returned (inngestRegisterUrl h).

Definition register_request {URL : Type} (P : Platform URL) (h : InngestCommHandler URL)
  (text : option string) : RequestInit :=
  {| init_method := "POST";
     init_body := text;
     init_headers :=
       handler_headers h ++ [("Authorization", "Bearer " ++ hashedSigningKey P h)];
     init_redirect := "follow" |}.

(** The URL the Deno Fresh handler resolves for a request, and the
    production test it makes on the environment. *)
Definition fresh_url {URL : Type}
  (reqUrl_of_host : InngestCommHandler URL -> string -> string -> Completion URL)
  (h : InngestCommHandler URL) (req : DenoFresh.Request) : Completion URL :=
  reqUrl_of_host h (DenoFresh.req_url req)
    ("https://" ++ str_or (DenoFresh.req_host req) "").

Definition fresh_env_production (env : Env) : bool :=
  DenoFresh.is_production env "VERCEL_ENV" || DenoFresh.is_production env "CONTEXT" ||
  DenoFresh.is_production env "ENVIRONMENT".

(** [v instanceof Error]. *)
Definition is_Error (v : JsValue) : bool :=
  match v with
  | JError _ _ _ _ => true
  | _ => false
  end.

(** The members [stringify] prints for an object's properties, [None] when
    one of them cannot be serialized: the inner loop of [stringify], by
    itself. *)
Definition members_of : Props -> option (list string) :=
  fix members (ps : Props) : option (list string) :=
    match ps with
    | [] => Some []
    | (k, x) :: rest =>
        match stringify x with
        | Unserializable => None
        | NoText => members rest
        | Text s =>
            match members rest with
            | Some l => Some ((quote k ++ ":" ++ s) :: l)
            | None => None
            end
        end
    end.

(** The header every response of an instance starts from. *)
Definition sdk_headers {URL : Type} (P : Platform URL) (h : InngestCommHandler URL)
  : list (string * string) :=
  [("x-inngest-sdk", sdkHeader_join P h)].

(** The text of a JSON serialization, [None] for [undefined] and for a
    value that cannot be serialized. *)
Definition json_text (v : JsValue) : option string :=
  match stringify v with
  | Text s => Some s
  | _ => None
  end.

(* ------------------------------------------------------------------ *)
(** ** A small platform and a few handlers to run the definitions on *)

Module Fixture.

Record Url : Type := {
  u_origin : string;
  u_path : string;
  u_query : list (string * string)
}.

Definition query_text (q : list (string * string)) : string :=
  match q with
  | [] => ""
  | _ => "?" ++ join "&" (map (fun kv => fst kv ++ "=" ++ snd kv) q)
  end.

Definition no_network : FetchT :=
  fun _ _ => Thrown (JError "TypeError" "fetch failed" None []).

Definition platform : Platform Url :=
  {| envKeys_SigningKey := "INNGEST_SIGNING_KEY";
     envKeys_LandingPage := "INNGEST_LANDING_PAGE";
     envKeys_DevServerUrl := "INNGEST_DEVSERVER_URL";
     queryKeys_Introspect := "introspect";
     queryKeys_FnId := "fnId";
     queryKeys_StepId := "stepId";
     version := "1.0.0";
     landing := "<!DOCTYPE html>";
     strBoolean := fun s =>
       match s with
       | Some v => if String.eqb v "true" then Some true
                   else if String.eqb v "false" then Some false else None
       | None => None
       end;
     devServerUrl := fun host path =>
       Returned {| u_origin := str_or host "http://127.0.0.1:8288";
                   u_path := str_or path "/";
                   u_query := [] |};
     devServerAvailable := fun _ _ => Returned false;
     devServerHost := fun _ => None;
     cross_fetch := no_network;
     url_parse := fun s base =>
       Returned {| u_origin := str_or base ""; u_path := s; u_query := [] |};
     url_href := fun u => u_origin u ++ u_path u ++ query_text (u_query u);
     url_pathname := u_path;
     url_search := fun u => query_text (u_query u);
     url_set_pathname := fun u p =>
       {| u_origin := u_origin u; u_path := p; u_query := u_query u |};
     url_has_param := fun u k =>
       match env_get (u_query u) k with Some _ => true | None => false end;
     url_get_param := fun u k => env_get (u_query u) k;
     url_delete_param := fun u k =>
       {| u_origin := u_origin u; u_path := u_path u;
          u_query := filter (fun kv => negb (String.eqb k (fst kv))) (u_query u) |};
     sha256_hex := fun s => "sha256:" ++ s;
     sha256_hex_of_hex := fun s => "sha256:hex:" ++ s;
     captureStack := fun _ _ => None;
     zodFailure := fun _ _ => ("invalid input", None, [("name", JStr "ZodError")]);
     cjsSerializeError := fun v =>
       Returned [("name", JStr "Error");
                 ("message", match js_get v "message" with
                             | JStr m => JStr m
                             | _ => JStr ""
                             end);
                 ("stack", JStr "")] |}.

Definition no_options : RegisterOptions :=
  {| opt_inngestRegisterUrl := None;
     opt_fetch := None;
     opt_landingPage := None;
     opt_signingKey := None;
     opt_serveHost := None;
     opt_servePath := None |}.

(** A function whose engine answers every call with [[isOp, result]]. *)
Definition constant_fn (id : string) (isOp : bool) (result : JsValue)
  : InngestFunction Url :=
  {| fn_id := fun app => app ++ "-" ++ id;
     runFn := fun _ _ => Returned (isOp, result);
     getConfig := fun _ app => JObj [("id", JStr (app ++ "-" ++ id))] |}.

Definition endpoint : Url :=
  {| u_origin := "https://example.com"; u_path := "/api/inngest"; u_query := [] |}.

(** The instance [new InngestCommHandler("test", "app", [fn])] leaves. *)
Definition handler_of (functions : list (InngestFunction Url)) : InngestCommHandler Url :=
  match constructor platform "test" (inl "app") functions no_options with
  | Returned h => h
  | Thrown _ =>
      {| name := "app"; frameworkName := "test"; signingKey := None; _isProd := false;
         handler_headers := []; handler_fetch := no_network;
         showLandingPage := None; serveHost := None; servePath := None;
         fns := []; inngestRegisterUrl := endpoint |}
  end.

Definition run_action (fnId : string) (data : JsValue) : HandlerAction Url :=
  ActRun {| run_fnId := fnId; run_data := data; run_env := [];
            run_isProduction := false; run_url := endpoint |}.

(** Probes of an adapter whose [run] throws [e]. *)
Definition run_throws (e : JsValue) : Actions Url :=
  {| run := Thrown e; view := Returned None; register_probe := Returned None |}.

Definition view_action (env : Env) (isIntrospection isProduction : bool)
  : HandlerAction Url :=
  ActView {| view_env := env; view_url := endpoint;
             view_isIntrospection := isIntrospection;
             view_isProduction := isProduction |}.


Definition register_action (env : Env) : HandlerAction Url :=
  ActRegister {| register_env := env; register_url := endpoint;
                 register_isProduction := false |}.

Definition ok_fn : InngestFunction Url := constant_fn "f" false (JObj [("ok", JBool true)]).
Definition wait_fn : InngestFunction Url := constant_fn "w" true (JObj [("op", JStr "wait")]).
Definition bigint_fn : InngestFunction Url := constant_fn "big" false (JBigInt 1).

Definition empty_run : JsValue := JObj [("event", JObj []); ("steps", JObj [])].

(** A function whose engine throws [v] on every call. *)
Definition throwing_fn (id : string) (v : JsValue) : InngestFunction Url :=
  {| fn_id := fun app => app ++ "-" ++ id;
     runFn := fun _ _ => Thrown v;
     getConfig := fun _ app => JObj [("id", JStr (app ++ "-" ++ id))] |}.

(** A [fetch] that answers every request with [res]. *)
Definition answering (res : FetchResponse) : FetchT := fun _ _ => Returned res.

Definition options_with (f : option FetchT) (landingPage : option bool) : RegisterOptions :=
  {| opt_inngestRegisterUrl := None;
     opt_fetch := f;
     opt_landingPage := landingPage;
     opt_signingKey := None;
     opt_serveHost := None;
     opt_servePath := None |}.

Definition handler_with (f : option FetchT) (landingPage : option bool)
  (functions : list (InngestFunction Url)) : InngestCommHandler Url :=
  match constructor platform "test" (inl "app") functions (options_with f landingPage) with
  | Returned h => h
  | Thrown _ => handler_of functions
  end.

(** A gateway's error page, and two registration responses. *)
Definition bad_gateway : FetchResponse :=
  {| res_status := 502; res_statusText := "Bad Gateway";
     res_json := Thrown (JError "SyntaxError" "Unexpected token <" None []) |}.

Definition skipped_response : FetchResponse :=
  {| res_status := 200; res_statusText := "OK";
     res_json := Returned (JObj [("status", JNum 200); ("skipped", JBool true)]) |}.

Definition ill_typed_response : FetchResponse :=
  {| res_status := 200; res_statusText := "OK";
     res_json := Returned (JObj [("status", JStr "200")]) |}.

(** The platform with a dev server that answers the probe. *)
Definition platform_with_dev_server : Platform Url :=
  {| envKeys_SigningKey := envKeys_SigningKey platform;
     envKeys_LandingPage := envKeys_LandingPage platform;
     envKeys_DevServerUrl := envKeys_DevServerUrl platform;
     queryKeys_Introspect := queryKeys_Introspect platform;
     queryKeys_FnId := queryKeys_FnId platform;
     queryKeys_StepId := queryKeys_StepId platform;
     version := version platform;
     landing := landing platform;
     strBoolean := strBoolean platform;
     devServerUrl := devServerUrl platform;
     devServerAvailable := fun _ _ => Returned true;
     devServerHost := devServerHost platform;
     cross_fetch := cross_fetch platform;
     url_parse := url_parse platform;
     url_href := url_href platform;
     url_pathname := url_pathname platform;
     url_search := url_search platform;
     url_set_pathname := url_set_pathname platform;
     url_has_param := url_has_param platform;
     url_get_param := url_get_param platform;
     url_delete_param := url_delete_param platform;
     sha256_hex := sha256_hex platform;
     sha256_hex_of_hex := sha256_hex_of_hex platform;
     captureStack := captureStack platform;
     zodFailure := zodFailure platform;
     cjsSerializeError := cjsSerializeError platform |}.

(** The Deno Fresh handler's URL resolution, and a request. *)
Definition fresh_reqUrl : InngestCommHandler Url -> string -> string -> Completion Url :=
  fun _ url host => url_parse platform url (Some host).

Definition fresh_reqUrl_failing
  : InngestCommHandler Url -> string -> string -> Completion Url :=
  fun _ _ _ => Thrown (JError "TypeError" "Invalid URL" None []).

Definition fresh_request (method : string) : DenoFresh.Request :=
  {| DenoFresh.req_url := "/api/inngest";
     DenoFresh.req_host := Some "example.com";
     DenoFresh.req_method := method;
     DenoFresh.req_json := Returned empty_run |}.

(** Colours written as tags, and a [trim] for spaces. *)
Definition tags : Pretty.Chalk :=
  {| Pretty.red := fun s => "<red>" ++ s ++ "</red>";
     Pretty.yellow := fun s => "<yellow>" ++ s ++ "</yellow>";
     Pretty.bold_underline := fun s => "<b>" ++ s ++ "</b>" |}.

Fixpoint drop_leading_spaces (s : string) : string :=
  match s with
  | String c rest => if Ascii.eqb c (ascii_of_nat 32) then drop_leading_spaces rest else s
  | EmptyString => EmptyString
  end.

Fixpoint drop_trailing_spaces (s : string) : string :=
  match s with
  | EmptyString => EmptyString
  | String c rest =>
      match drop_trailing_spaces rest with
      | EmptyString => if Ascii.eqb c (ascii_of_nat 32) then EmptyString
                       else String c EmptyString
      | rest' => String c rest'
      end
  end.

Definition trim_spaces (s : string) : string :=
  drop_trailing_spaces (drop_leading_spaces s).

Definition identity_deserialize : JsValue -> Completion JsValue := fun v => Returned v.

End Fixture.


(* ------------------------------------------------------------------ *)
(** * Properties *)

Arguments JSON_stringify {URL} P v : simpl never.

Section Properties.

Context {URL : Type}.
Variable P : Platform URL.

Implicit Types (h : InngestCommHandler URL) (actions : Actions URL) (env : Env).

(** ** Strings and keys *)

Lemma str_or_empty (e : string) : str_or (Some e) "" = e.
Proof.
  unfold str_or, truthy_str.
  destruct (String.eqb_spec e ""); simpl; congruence.
Qed.

Lemma upsert_when_set h env :
  key_is_set h = true -> upsertSigningKeyFromEnv P h env = h.
Proof.
  unfold key_is_set, upsertSigningKeyFromEnv. intros ->. reflexivity.
Qed.

Lemma upsert_cases h env :
  upsertSigningKeyFromEnv P h env = h \/
  (key_is_set h = false /\
   truthy_str (env_get env (envKeys_SigningKey P)) = true /\
   upsertSigningKeyFromEnv P h env =
     set_signingKey (env_get env (envKeys_SigningKey P)) h).
Proof.
  unfold key_is_set, upsertSigningKeyFromEnv.
  destruct (truthy_str (signingKey h)); simpl; auto.
  destruct (truthy_str (env_get env (envKeys_SigningKey P))); auto.
Qed.

Lemma upsert_fns h env : fns (upsertSigningKeyFromEnv P h env) = fns h.
Proof. destruct (upsert_cases h env) as [-> | (_ & _ & ->)]; reflexivity. Qed.

Lemma upsert_isProd h env : _isProd (upsertSigningKeyFromEnv P h env) = _isProd h.
Proof. destruct (upsert_cases h env) as [-> | (_ & _ & ->)]; reflexivity. Qed.

Lemma upsert_sdkHeader h env :
  sdkHeader_join P (upsertSigningKeyFromEnv P h env) = sdkHeader_join P h.
Proof. destruct (upsert_cases h env) as [-> | (_ & _ & ->)]; reflexivity. Qed.

(** ** The handler a dispatch leaves behind *)

Lemma handleAction_fst h actions :
  fst (handleAction P h actions) =
  fst (handleAction_try P h [("x-inngest-sdk", sdkHeader_join P h)] actions).
Proof.
  unfold handleAction.
  destruct (handleAction_try P h _ actions) as [h' tried]. reflexivity.
Qed.

Lemma handleAction_try_fst h hdrs actions :
  fst (handleAction_try P h hdrs actions) = h \/
  exists env, fst (handleAction_try P h hdrs actions) = upsertSigningKeyFromEnv P h env.
Proof.
  unfold handleAction_try.
  destruct (run actions) as [[r|]|]; simpl; eauto.
  destruct (view actions) as [[v|]|]; simpl; eauto.
  destruct (register_probe actions) as [[g|]|]; simpl; eauto.
Qed.

Lemma handleAction_keeps_set_key h actions :
  key_is_set h = true -> fst (handleAction P h actions) = h.
Proof.
  intros Hset. rewrite handleAction_fst.
  destruct (handleAction_try_fst h [("x-inngest-sdk", sdkHeader_join P h)] actions)
    as [-> | [env ->]]; auto using upsert_when_set.
Qed.

Lemma handleAction_isProd h actions :
  _isProd (fst (handleAction P h actions)) = _isProd h.
Proof.
  rewrite handleAction_fst.
  destruct (handleAction_try_fst h [("x-inngest-sdk", sdkHeader_join P h)] actions)
    as [-> | [env ->]]; auto using upsert_isProd.
Qed.

Lemma dispatch_all_keeps_set_key h (requests : list (Actions URL)) :
  key_is_set h = true -> dispatch_all P h requests = h.
Proof.
  revert h. induction requests as [|a rest IH]; intros h Hset; simpl.
  - reflexivity.
  - rewrite (handleAction_keeps_set_key h a Hset). now apply IH.
Qed.

Lemma dispatch_all_app h (l1 l2 : list (Actions URL)) :
  dispatch_all P h (l1 ++ l2) = dispatch_all P (dispatch_all P h l1) l2.
Proof.
  revert h. induction l1 as [|a rest IH]; intros h; simpl; auto.
Qed.

Lemma dispatch_all_isProd h (requests : list (Actions URL)) :
  _isProd (dispatch_all P h requests) = _isProd h.
Proof.
  revert h. induction requests as [|a rest IH]; intros h; simpl.
  - reflexivity.
  - rewrite IH. apply handleAction_isProd.
Qed.

Lemma fresh_keeps_set_key h
  (reqUrl_of_host : InngestCommHandler URL -> string -> string -> Completion URL)
  (req : DenoFresh.Request) env :
  key_is_set h = true ->
  signingKey (fst (DenoFresh.createHandler P reqUrl_of_host h req env)) = signingKey h.
Proof.
  unfold key_is_set, DenoFresh.createHandler. intros Hset.
  destruct (bind (reqUrl_of_host h _ _) _) as [[intro u]|err]; simpl; auto.
  now rewrite Hset.
Qed.

(** C9.  Signing-key adoption is first writer wins.  Once the instance holds
    a key, be it from construction ([before] empty) or adopted while serving
    the requests [before], adopting from any environment snapshot leaves the
    instance as it is, and after any further requests [after] the key is the
    one it held. *)
Theorem signing_key_first_writer_wins h (before after : list (Actions URL)) env :
  key_is_set (dispatch_all P h before) = true ->
  upsertSigningKeyFromEnv P (dispatch_all P h before) env = dispatch_all P h before /\
  signingKey (dispatch_all P h (before ++ after)) = signingKey (dispatch_all P h before) /\
  key_is_set (dispatch_all P h (before ++ after)) = true.
Proof.
  intros Hset. split; [now apply upsert_when_set|].
  rewrite dispatch_all_app, (dispatch_all_keeps_set_key _ after Hset). auto.
Qed.

(** A key is adopted only by an instance that holds none, and what it adopts
    is the non-empty value of the signing-key variable. *)
Lemma adoption_only_when_unset h env :
  signingKey (upsertSigningKeyFromEnv P h env) <> signingKey h ->
  key_is_set h = false /\
  signingKey (upsertSigningKeyFromEnv P h env) = env_get env (envKeys_SigningKey P) /\
  key_is_set (upsertSigningKeyFromEnv P h env) = true.
Proof.
  intros Hne. destruct (upsert_cases h env) as [E | (Hunset & Henv & E)].
  - rewrite E in Hne. congruence.
  - rewrite E. unfold key_is_set. simpl. auto.
Qed.

(** C10.  When the environment snapshot binds the signing-key variable to
    the empty string, an instance without a key adopts nothing: the handler
    is unchanged and still has no key.  The same holds for the adoption
    written out in the Deno Fresh handler. *)
Theorem empty_signing_key_not_adopted h env
  (reqUrl_of_host : InngestCommHandler URL -> string -> string -> Completion URL)
  (req : DenoFresh.Request) :
  env_get env (envKeys_SigningKey P) = Some "" ->
  key_is_set h = false ->
  upsertSigningKeyFromEnv P h env = h /\
  key_is_set (upsertSigningKeyFromEnv P h env) = false /\
  signingKey (fst (DenoFresh.createHandler P reqUrl_of_host h req env)) = signingKey h.
Proof.
  intros Henv Hunset.
  assert (E : upsertSigningKeyFromEnv P h env = h).
  { unfold upsertSigningKeyFromEnv. rewrite Henv. simpl.
    now rewrite andb_false_r. }
  rewrite E. repeat split; auto.
  unfold DenoFresh.createHandler.
  destruct (bind (reqUrl_of_host h _ _) _) as [[intro u]|err]; simpl; auto.
  rewrite Henv. simpl. now rewrite andb_false_r.
Qed.

(** ** Error transport *)

Lemma prop_get_set_same (k : string) (v : JsValue) (ps : Props) :
  prop_get k (prop_set k v ps) = Some v.
Proof.
  induction ps as [|[k' v'] rest IH]; simpl.
  - now rewrite String.eqb_refl.
  - destruct (String.eqb k k') eqn:E; simpl; rewrite E; auto.
Qed.

Lemma prop_get_set_other (k k' : string) (v : JsValue) (ps : Props) :
  String.eqb k' k = false -> prop_get k' (prop_set k v ps) = prop_get k' ps.
Proof.
  intros Hne. induction ps as [|[k0 v0] rest IH]; simpl.
  - now rewrite Hne.
  - destruct (String.eqb k k0) eqn:E; simpl.
    + apply String.eqb_eq in E. subst k0. now rewrite Hne.
    + now rewrite IH.
Qed.

Lemma prop_delete_set (k : string) (v : JsValue) (ps : Props) :
  prop_delete k (prop_set k v ps) = prop_delete k ps.
Proof.
  induction ps as [|[k' v'] rest IH]; simpl.
  - now rewrite String.eqb_refl.
  - destruct (String.eqb k k') eqn:E; simpl; rewrite E; congruence.
Qed.

(** Whether a value counts as serialized is read off its own property
    [__serialized] and nothing else. *)
Lemma isSerializedError_marker (v : JsValue) :
  isSerializedError P v =
  match own_property v SERIALIZED_KEY with
  | Some (JBool true) => true
  | _ => false
  end.
Proof.
  unfold isSerializedError, hasOwnProperty_call, js_get.
  destruct v; simpl; try reflexivity;
    match goal with
    | |- context [prop_get ?k ?ps] => destruct (prop_get k ps) as [[]|]; reflexivity
    end.
Qed.

(** Fields other than the marker do not matter: an object with [name],
    [message] and [stack] but no marker is not taken for a serialized
    error, whatever they hold. *)
Lemma isSerializedError_other_fields (k : string) (x : JsValue) (ps : Props) :
  String.eqb SERIALIZED_KEY k = false ->
  isSerializedError P (JObj (prop_set k x ps)) = isSerializedError P (JObj ps).
Proof.
  intros Hne. rewrite !isSerializedError_marker. unfold own_property.
  now rewrite prop_get_set_other.
Qed.

Lemma serializeError_result_marked (ps : Props) :
  isSerializedError P (JObj (prop_set SERIALIZED_KEY SERIALIZED_VALUE ps)) = true.
Proof.
  rewrite isSerializedError_marker. unfold own_property.
  now rewrite prop_get_set_same.
Qed.

(** C7.  [serializeError] is idempotent: serializing its result again gives
    that result (and a subject it cannot serialize fails the same way both
    times); a value that carries the marker [__serialized: true] is returned
    as it is; and the test for the marker reads the own property
    [__serialized] alone. *)
Theorem serializeError_idempotent (v : JsValue) :
  bind (serializeError P v) (serializeError P) = serializeError P v /\
  (isSerializedError P v = true -> serializeError P v = Returned v) /\
  isSerializedError P v =
    match own_property v SERIALIZED_KEY with
    | Some (JBool true) => true
    | _ => false
    end.
Proof.
  split; [|split].
  - unfold serializeError at 1 3.
    destruct (isSerializedError P v) eqn:E; simpl.
    + unfold serializeError. now rewrite E.
    + destruct (cjsSerializeError P v) as [ps|e]; simpl; auto.
      unfold serializeError. now rewrite serializeError_result_marked.
  - intros E. unfold serializeError. now rewrite E.
  - apply isSerializedError_marker.
Qed.

(** ** Registration body *)

Lemma registerFields_without_hash h (url : URL) :
  prop_delete "hash" (registerFields P h url) = registerFields P h url.
Proof. reflexivity. Qed.

Lemma registerBody_shape h (url : URL) body :
  registerBody P h url = Returned body ->
  exists text,
    JSON_stringify P (JObj (registerFields P h url)) = Returned text /\
    body = JObj (prop_set "hash"
                   (JStr (sha256_hex P (match text with Some s => s | None => "" end)))
                   (registerFields P h url)).
Proof.
  unfold registerBody.
  destruct (JSON_stringify P (JObj (registerFields P h url))) as [text|e]; simpl.
  - intros [= <-]. eauto.
  - discriminate.
Qed.

Lemma registerBody_digest h (url : URL) body :
  registerBody P h url = Returned body ->
  exists c, js_get body "hash" = JStr c /\ hash_excluding_itself P body = Returned c.
Proof.
  intros Hbody.
  destruct (registerBody_shape h url body Hbody) as (text & Htext & ->).
  eexists. split.
  - unfold js_get, own_property. rewrite prop_get_set_same. reflexivity.
  - unfold hash_excluding_itself, enumerable_props.
    rewrite prop_delete_set, registerFields_without_hash, Htext. reflexivity.
Qed.

(** C8.  The [hash] that [registerBody] attaches is the digest of the body's
    JSON form without the [hash] field, so it is a function of the remaining
    fields; computing it again after the [hash] field was given any other
    value [x] yields the same digest. *)
Theorem registerBody_hash_excludes_itself h (url : URL) body (x : JsValue) :
  registerBody P h url = Returned body ->
  exists c,
    js_get body "hash" = JStr c /\
    hash_excluding_itself P body = Returned c /\
    hash_excluding_itself P (JObj (prop_set "hash" x (enumerable_props body)))
      = Returned c.
Proof.
  intros Hbody.
  destruct (registerBody_shape h url body Hbody) as (text & Htext & ->).
  eexists. split; [|split].
  - unfold js_get, own_property. rewrite prop_get_set_same. reflexivity.
  - unfold hash_excluding_itself, enumerable_props.
    rewrite prop_delete_set, registerFields_without_hash, Htext. reflexivity.
  - unfold hash_excluding_itself, enumerable_props.
    rewrite !prop_delete_set, registerFields_without_hash, Htext. reflexivity.
Qed.

(** Two registration bodies that agree outside the [hash] field carry the
    same [hash]. *)
Lemma registerBody_hash_function_of_fields h1 h2 (url1 url2 : URL) body1 body2 :
  registerBody P h1 url1 = Returned body1 ->
  registerBody P h2 url2 = Returned body2 ->
  prop_delete "hash" (enumerable_props body1) =
    prop_delete "hash" (enumerable_props body2) ->
  js_get body1 "hash" = js_get body2 "hash".
Proof.
  intros H1 H2 Hsame.
  destruct (registerBody_digest h1 url1 body1 H1) as (c1 & -> & E1).
  destruct (registerBody_digest h2 url2 body2 H2) as (c2 & -> & E2).
  unfold hash_excluding_itself in E1, E2. rewrite Hsame in E1.
  rewrite E1 in E2. congruence.
Qed.

(** ** Step invoker *)

Ltac split_completion H :=
  match type of H with
  | context [bind ?c _] =>
      let E := fresh "E" in destruct c eqn:E; simpl in H
  | context [if ?b then _ else _] =>
      let E := fresh "E" in destruct b eqn:E; simpl in H
  | context [let '(_, _) := ?p in _] => destruct p; simpl in H
  end.

Lemma runStep_unknown_function h (id step : string) (data : JsValue) :
  fns_get id (fns h) = None ->
  runStep P h id step data =
  Returned {| step_status := 500; step_body := JUndefined;
              step_error :=
                Some (let message :=
                        "Could not find function with ID " ++ dquote ++ id ++ dquote in
                      str_or (captureStack P "Error" message) message) |}.
Proof. intros E. unfold runStep. rewrite E. reflexivity. Qed.

Lemma runStep_malformed_payload h (id step : string) (data : JsValue) fn err :
  fns_get id (fns h) = Some fn ->
  parse_run_payload P data = Thrown err ->
  runStep P h id step data =
  Returned {| step_status := 500; step_body := JUndefined;
              step_error :=
                Some (let '(message, stack, _) := zodFailure P RunPayloadSchema data in
                      str_or stack message) |}.
Proof.
  intros Hfn Hparse. unfold runStep. rewrite Hfn. simpl.
  unfold parse_run_payload, ZodError in *.
  destruct (zod_is_object data && _ && _).
  - discriminate.
  - simpl. destruct (zodFailure P RunPayloadSchema data) as [[m st] ps]. reflexivity.
Qed.

Lemma runStep_engine_throws_Error h (id step : string) (data : JsValue) fn event steps
  (ename message : string) (stack : option string) (ps : Props) :
  fns_get id (fns h) = Some fn ->
  parse_run_payload P data = Returned (event, steps) ->
  runFn fn (JObj [("event", event)]) (steps_or_empty steps) =
    Thrown (JError ename message stack ps) ->
  runStep P h id step data =
  Returned {| step_status := 500; step_body := JUndefined;
              step_error := Some (str_or stack message) |}.
Proof.
  intros Hfn Hparse Hrun. unfold runStep.
  rewrite Hfn. simpl. rewrite Hparse. simpl. rewrite Hrun. reflexivity.
Qed.

Lemma runStep_engine_returns h (id step : string) (data : JsValue) fn event steps
  (isOp : bool) (result : JsValue) :
  fns_get id (fns h) = Some fn ->
  parse_run_payload P data = Returned (event, steps) ->
  runFn fn (JObj [("event", event)]) (steps_or_empty steps) = Returned (isOp, result) ->
  runStep P h id step data =
  Returned {| step_status := if isOp then 206 else 200; step_body := result;
              step_error := None |}.
Proof.
  intros Hfn Hparse Hrun. unfold runStep.
  rewrite Hfn. simpl. rewrite Hparse. simpl. rewrite Hrun. simpl.
  destruct isOp; reflexivity.
Qed.

(** A payload without an [event] object does not parse. *)
Lemma parse_needs_event (data : JsValue) :
  has_event_object data = false ->
  parse_run_payload P data = Thrown (ZodError P RunPayloadSchema data).
Proof.
  unfold has_event_object, parse_run_payload. intros ->.
  now rewrite andb_false_r.
Qed.

Lemma ZodError_is_Error (schema : ZodSchema) (input : JsValue) :
  exists message stack ps, ZodError P schema input = JError "ZodError" message stack ps.
Proof.
  unfold ZodError. destruct (zodFailure P schema input) as [[m st] ps]. eauto.
Qed.

Lemma runStep_without_event h (id step : string) (data : JsValue) :
  has_event_object data = false ->
  exists e,
    runStep P h id step data =
    Returned {| step_status := 500; step_body := JUndefined; step_error := Some e |}.
Proof.
  intros Hno. destruct (fns_get id (fns h)) as [fn|] eqn:Hfn.
  - eexists. eapply runStep_malformed_payload; eauto using parse_needs_event.
  - eexists. now apply runStep_unknown_function.
Qed.

(** What [runStep] can return: a fault with a text, or the engine's body
    with status 200 or 206. *)
Lemma runStep_result h (id step : string) (data : JsValue) sr :
  runStep P h id step data = Returned sr ->
  (exists e, sr = {| step_status := 500; step_body := JUndefined; step_error := Some e |}) \/
  (exists (isOp : bool) result,
     sr = {| step_status := if isOp then 206 else 200; step_body := result;
             step_error := None |}).
Proof.
  unfold runStep. intros H.
  destruct (fns_get id (fns h)) as [fn|]; simpl in H.
  2: { injection H as <-. eauto. }
  destruct (parse_run_payload P data) as [[event steps]|err] eqn:Hparse; simpl in H.
  - destruct (runFn fn _ _) as [[isOp result]|err]; simpl in H.
    + right. exists isOp, result. destruct isOp; simpl in H; congruence.
    + left. destruct err; simpl in H.
      all: try (destruct (JSON_stringify P _); simpl in H);
        try discriminate; injection H as <-; eauto.
  - left. unfold parse_run_payload in Hparse.
    destruct (zod_is_object data && _ && _); [discriminate|].
    injection Hparse as <-.
    destruct (ZodError_is_Error RunPayloadSchema data) as (m & st & ps & E).
    rewrite E in H. simpl in H. injection H as <-. eauto.
Qed.

(** ** Dispatcher *)

(** The dispatcher on a run action, in terms of the step invoker. *)
Lemma handleAction_run h actions runRes :
  run actions = Returned (Some runRes) ->
  snd (handleAction P h actions) =
  try_catch
    (stepRes <- runStep P (upsertSigningKeyFromEnv P h (run_env runRes))
                  (run_fnId runRes) "step" (run_data runRes);;
     if Z.eqb (step_status stepRes) 500 then
       Returned {| status := 500;
                   body := Some (str_or (step_error stepRes) "");
                   headers := json_headers (sdk_headers P h) |}
     else
       text <- JSON_stringify P (step_body stepRes);;
       Returned {| status := step_status stepRes;
                   body := text;
                   headers := json_headers (sdk_headers P h) |})
    (fun err =>
       text <- JSON_stringify P err;;
       Returned {| status := 500; body := text;
                   headers := json_headers (sdk_headers P h) |}).
Proof.
  intros Hrun. unfold handleAction, handleAction_try, sdk_headers. rewrite Hrun.
  simpl. destruct (runStep P _ _ _ _) as [sr|e]; simpl; auto.
  destruct (Z.eqb (step_status sr) 500); simpl; auto.
  destruct (JSON_stringify P (step_body sr)); simpl; auto.
Qed.



(** C2, as the code has it.  A run action names a known function and its
    payload passes validation, giving [event] and [steps]; the engine,
    called with them, returns [[isOp, result]]; and [result] is a value
    [JSON.stringify] accepts.  Then the response has status 206 when [isOp]
    holds and 200 otherwise, and its body is [JSON.stringify(result)]. *)
Theorem run_status_follows_engine h actions runRes fn (event steps : JsValue)
  (isOp : bool) (result : JsValue) :
  run actions = Returned (Some runRes) ->
  fns_get (run_fnId runRes) (fns h) = Some fn ->
  parse_run_payload P (run_data runRes) = Returned (event, steps) ->
  runFn fn (JObj [("event", event)]) (steps_or_empty steps) = Returned (isOp, result) ->
  stringify result <> Unserializable ->
  has_event_object (run_data runRes) = true /\
  snd (handleAction P h actions) =
  Returned {| status := if isOp then 206 else 200;
              headers := json_headers (sdk_headers P h);
              body := json_text result |}.
Proof.
  intros Hrun Hfn Hparse Hengine Hser. split.
  - unfold parse_run_payload in Hparse. unfold has_event_object.
    destruct (zod_is_object (js_get (run_data runRes) "event")); auto.
    rewrite andb_false_r in Hparse. discriminate.
  - rewrite (handleAction_run h actions runRes Hrun).
    rewrite (runStep_engine_returns _ (run_fnId runRes) "step" (run_data runRes)
               fn event steps isOp result); auto.
    2: now rewrite upsert_fns.
    unfold JSON_stringify, json_text.
    destruct isOp; simpl; destruct (stringify result); simpl; congruence.
Qed.

(** C3.  A run action whose raw payload has no [event] object is answered
    with status 500, never 200 or 206: the step invoker reports a fault
    (the function is unknown or the payload is refused), the engine is not
    called, and the body is the fault's text. *)
Theorem run_without_event_is_500 h actions runRes :
  run actions = Returned (Some runRes) ->
  has_event_object (run_data runRes) = false ->
  exists res e,
    snd (handleAction P h actions) = Returned res /\
    status res = 500%Z /\ status res <> 200%Z /\ status res <> 206%Z /\
    runStep P (upsertSigningKeyFromEnv P h (run_env runRes))
      (run_fnId runRes) "step" (run_data runRes) =
      Returned {| step_status := 500; step_body := JUndefined; step_error := Some e |} /\
    body res = Some e.
Proof.
  intros Hrun Hno.
  destruct (runStep_without_event (upsertSigningKeyFromEnv P h (run_env runRes))
              (run_fnId runRes) "step" (run_data runRes) Hno) as [e He].
  rewrite (handleAction_run h actions runRes Hrun), He. simpl.
  eexists. exists e. split; [reflexivity|]. simpl.
  rewrite str_or_empty. repeat split; auto; discriminate.
Qed.


(** The Deno Fresh handler answers the same fault with the text as a JSON
    string literal. *)
Lemma fresh_step_fault_response h
  (reqUrl_of_host : InngestCommHandler URL -> string -> string -> Completion URL)
  (req : DenoFresh.Request) env (u : URL) (fnId stepId e : string) (data : JsValue) :
  reqUrl_of_host h (DenoFresh.req_url req)
    ("https://" ++ str_or (DenoFresh.req_host req) "") = Returned u ->
  DenoFresh.req_method req = "POST" ->
  DenoFresh.parse_query P
    (url_get_param P (url_delete_param P u (queryKeys_Introspect P)) (queryKeys_FnId P))
    (url_get_param P (url_delete_param P u (queryKeys_Introspect P)) (queryKeys_StepId P))
    = Returned (fnId, stepId) ->
  DenoFresh.req_json req = Returned data ->
  runStep P (fst (DenoFresh.createHandler P reqUrl_of_host h req env)) fnId stepId data =
    Returned {| step_status := 500; step_body := JUndefined; step_error := Some e |} ->
  snd (DenoFresh.createHandler P reqUrl_of_host h req env) =
  Returned {| status := 500; headers := sdk_headers P h; body := Some (quote e) |}.
Proof.
  unfold DenoFresh.createHandler. intros -> Hm Hq Hj. simpl.
  rewrite Hm. simpl. rewrite Hq. simpl. rewrite Hj. simpl.
  intros ->. reflexivity.
Qed.


(** The dispatcher's production gate reads the instance's [_isProd], which
    the constructor clears and no dispatch writes; the [isProduction] flag of
    the view action is not consulted. *)
Lemma constructor_isProd (framework : string) (app : string + Inngest)
  (functions : list (InngestFunction URL)) (opts : RegisterOptions) h :
  constructor P framework app functions opts = Returned h -> _isProd h = false.
Proof.
  unfold constructor. intros H.
  repeat split_completion H; try discriminate. injection H as <-. reflexivity.
Qed.

Lemma view_served_whatever_isProduction h actions v :
  run actions = Returned None ->
  view actions = Returned (Some v) ->
  _isProd h = false ->
  shouldShowLandingPage P (upsertSigningKeyFromEnv P h (view_env v))
    (env_get (view_env v) (envKeys_LandingPage P)) = true ->
  view_isIntrospection v = false ->
  snd (handleAction P h actions) =
  Returned {| status := 200;
              headers :=
                (sdk_headers P h ++ [("Content-Type", "text/html; charset=utf-8")])%list;
              body := Some (landing P) |}.
Proof.
  intros Hrun Hview Hprod Hshow Hintro.
  unfold handleAction, handleAction_try. rewrite Hrun, Hview. simpl.
  rewrite upsert_isProd, Hprod, Hshow, Hintro. reflexivity.
Qed.

Lemma view_405_when_instance_in_production h actions v :
  run actions = Returned None ->
  view actions = Returned (Some v) ->
  _isProd h = true ->
  snd (handleAction P h actions) =
  Returned {| status := 405; headers := sdk_headers P h; body := Some "" |}.
Proof.
  intros Hrun Hview Hprod.
  unfold handleAction, handleAction_try. rewrite Hrun, Hview. simpl.
  rewrite upsert_isProd, Hprod. reflexivity.
Qed.

End Properties.

(* ------------------------------------------------------------------ *)
(** * The properties on concrete requests *)

Import Fixture.

Example handler_of_is_constructed :
  constructor platform "test" (inl "app") [ok_fn; wait_fn] no_options =
  Returned (handler_of [ok_fn; wait_fn]).
Proof. reflexivity. Qed.

Example duplicate_ids_are_refused :
  exists e, constructor platform "test" (inl "app") [ok_fn; ok_fn] no_options = Thrown e.
Proof. eexists. reflexivity. Qed.

(** The two runs of the specification's examples. *)
Example run_completed :
  snd (handleAction platform (handler_of [ok_fn; wait_fn])
         (actions_of (run_action "app-f" empty_run))) =
  Returned {| status := 200;
              headers := [("x-inngest-sdk", "inngest-js:v1.0.0 (test)");
                          ("Content-Type", "application/json")];
              body := Some ("{" ++ dquote ++ "ok" ++ dquote ++ ":true}") |}.
Proof. reflexivity. Qed.

Example run_pending :
  snd (handleAction platform (handler_of [ok_fn; wait_fn])
         (actions_of (run_action "app-w" empty_run))) =
  Returned {| status := 206;
              headers := [("x-inngest-sdk", "inngest-js:v1.0.0 (test)");
                          ("Content-Type", "application/json")];
              body := Some ("{" ++ dquote ++ "op" ++ dquote ++ ":" ++
                            dquote ++ "wait" ++ dquote ++ "}") |}.
Proof. reflexivity. Qed.



(** A failure that is [undefined] leaves the 500 without a body. *)
Example undefined_failure_has_no_body :
  snd (handleAction platform (handler_of []) (run_throws JUndefined)) =
  Returned {| status := 500;
              headers := json_headers (sdk_headers platform (handler_of []));
              body := None |}.
Proof. reflexivity. Qed.

(** A payload whose [steps] is a number is refused although it has its
    [event] object: the engine is not called. *)
Example malformed_steps_is_500 :
  has_event_object (JObj [("event", JObj []); ("steps", JNum 7)]) = true /\
  snd (handleAction platform (handler_of [ok_fn])
         (actions_of (run_action "app-f" (JObj [("event", JObj []); ("steps", JNum 7)])))) =
  Returned {| status := 500;
              headers := json_headers (sdk_headers platform (handler_of [ok_fn]));
              body := Some "invalid input" |}.
Proof. split; reflexivity. Qed.

(** C2 on the specification's example. *)
Lemma run_status_follows_engine_witness :
  (run (actions_of (run_action "app-f" empty_run)) =
     Returned (Some {| run_fnId := "app-f"; run_data := empty_run; run_env := [];
                       run_isProduction := false; run_url := endpoint |}) /\
   fns_get "app-f" (fns (handler_of [ok_fn; wait_fn])) = Some ok_fn /\
   parse_run_payload platform empty_run = Returned (JObj [], JObj []) /\
   runFn ok_fn (JObj [("event", JObj [])]) (steps_or_empty (JObj [])) =
     Returned (false, JObj [("ok", JBool true)]) /\
   stringify (JObj [("ok", JBool true)]) <> Unserializable) /\
  has_event_object empty_run = true /\
  snd (handleAction platform (handler_of [ok_fn; wait_fn])
         (actions_of (run_action "app-f" empty_run))) =
  Returned {| status := 200;
              headers := json_headers (sdk_headers platform (handler_of [ok_fn; wait_fn]));
              body := json_text (JObj [("ok", JBool true)]) |}.
Proof.
  assert (Hser : stringify (JObj [("ok", JBool true)]) <> Unserializable)
    by (vm_compute; discriminate).
  split; [repeat split; try reflexivity; exact Hser|].
  apply (run_status_follows_engine platform (handler_of [ok_fn; wait_fn])
           (actions_of (run_action "app-f" empty_run))
           {| run_fnId := "app-f"; run_data := empty_run; run_env := [];
              run_isProduction := false; run_url := endpoint |}
           ok_fn (JObj []) (JObj []) false (JObj [("ok", JBool true)]));
    try reflexivity; exact Hser.
Defined.

(** C2 fails when the engine's body is a value [JSON.stringify] refuses: the
    function is known, the payload has its [event] object, the engine returns
    [[false, body]], and the response is a 500. *)
Lemma unserializable_result_is_500 :
  fns_get "app-big" (fns (handler_of [bigint_fn])) = Some bigint_fn /\
  has_event_object empty_run = true /\
  runFn bigint_fn (JObj [("event", JObj [])]) (JObj []) = Returned (false, JBigInt 1) /\
  exists res,
    snd (handleAction platform (handler_of [bigint_fn])
           (actions_of (run_action "app-big" empty_run))) = Returned res /\
    status res = 500%Z /\ status res <> 200%Z /\ body res = Some "{}".
Proof.
  repeat split; try reflexivity.
  eexists. split; [vm_compute; reflexivity|]. simpl. repeat split. discriminate.
Qed.

(** C3 on a payload that has [steps] and no [event]. *)
Lemma run_without_event_is_500_witness :
  (run (actions_of (run_action "app-f" (JObj [("steps", JObj [])]))) =
     Returned (Some {| run_fnId := "app-f"; run_data := JObj [("steps", JObj [])];
                       run_env := []; run_isProduction := false; run_url := endpoint |}) /\
   has_event_object (JObj [("steps", JObj [])]) = false) /\
  exists res e,
    snd (handleAction platform (handler_of [ok_fn])
           (actions_of (run_action "app-f" (JObj [("steps", JObj [])])))) = Returned res /\
    status res = 500%Z /\ status res <> 200%Z /\ status res <> 206%Z /\
    runStep platform (upsertSigningKeyFromEnv platform (handler_of [ok_fn]) [])
      "app-f" "step" (JObj [("steps", JObj [])]) =
      Returned {| step_status := 500; step_body := JUndefined; step_error := Some e |} /\
    body res = Some e.
Proof.
  split; [split; reflexivity|].
  apply (run_without_event_is_500 platform (handler_of [ok_fn])
           (actions_of (run_action "app-f" (JObj [("steps", JObj [])])))
           {| run_fnId := "app-f"; run_data := JObj [("steps", JObj [])];
              run_env := []; run_isProduction := false; run_url := endpoint |});
    reflexivity.
Defined.

(** C4 at a failing request.  A handler as the constructor leaves it, landing
    page not disabled, receives a view action whose [isProduction] flag is
    set and which asks for introspection: the answer is 200 with the
    introspection document, not 405. *)
Theorem production_view_gets_introspection :
  exists reg,
    registerBody platform (handler_of [ok_fn]) endpoint = Returned reg /\
    handleAction platform (handler_of [ok_fn]) (actions_of (view_action [] true true)) =
    (handler_of [ok_fn],
     Returned {| status := 200;
                 headers := json_headers (sdk_headers platform (handler_of [ok_fn]));
                 body :=
                   json_text
                     (JObj (prop_set "hasSigningKey" (JBool false)
                              (prop_set "devServerURL" (JStr "http://127.0.0.1:8288/")
                                 (enumerable_props reg)))) |}).
Proof. eexists. split; reflexivity. Qed.

(** The same view without introspection gets the landing page. *)
Example production_view_gets_landing_page :
  snd (handleAction platform (handler_of [ok_fn]) (actions_of (view_action [] false true))) =
  Returned {| status := 200;
              headers := [("x-inngest-sdk", "inngest-js:v1.0.0 (test)");
                          ("Content-Type", "text/html; charset=utf-8")];
              body := Some (landing platform) |}.
Proof. reflexivity. Qed.




(** C7 on an object that has the marker and none of [name], [message],
    [stack]: it is returned as it is. *)
Lemma serializeError_idempotent_witness :
  isSerializedError platform (JObj [("__serialized", JBool true)]) = true /\
  serializeError platform (JObj [("__serialized", JBool true)]) =
    Returned (JObj [("__serialized", JBool true)]).
Proof.
  split; [reflexivity|].
  apply (proj1 (proj2 (serializeError_idempotent platform
                         (JObj [("__serialized", JBool true)])))).
  reflexivity.
Defined.

(** An error is serialized once; an object that only looks like a
    serialized error is serialized again. *)
Example serializeError_twice :
  bind (serializeError platform (JError "Error" "boom" None []))
       (serializeError platform) =
  Returned (JObj [("name", JStr "Error"); ("message", JStr "boom"); ("stack", JStr "");
                  ("__serialized", JBool true)]) /\
  isSerializedError platform
    (JObj [("name", JStr "Error"); ("message", JStr "boom"); ("stack", JStr "")]) = false.
Proof. split; reflexivity. Qed.

(** C8 on the fixture's endpoint, the [hash] field overwritten with [null]. *)
Lemma registerBody_hash_excludes_itself_witness :
  exists body,
    registerBody platform (handler_of [ok_fn]) endpoint = Returned body /\
    exists c,
      js_get body "hash" = JStr c /\
      hash_excluding_itself platform body = Returned c /\
      hash_excluding_itself platform (JObj (prop_set "hash" JNull (enumerable_props body)))
        = Returned c.
Proof.
  eexists. split; [reflexivity|].
  apply (registerBody_hash_excludes_itself platform (handler_of [ok_fn]) endpoint _ JNull).
  reflexivity.
Defined.

(** C9 on two requests that offer different keys to an instance built
    without one: the first is kept. *)
Lemma signing_key_first_writer_wins_witness :
  key_is_set
    (dispatch_all platform (handler_of [])
       [actions_of (register_action [("INNGEST_SIGNING_KEY", "signkey-test-aa")])]) = true /\
  upsertSigningKeyFromEnv platform
    (dispatch_all platform (handler_of [])
       [actions_of (register_action [("INNGEST_SIGNING_KEY", "signkey-test-aa")])])
    [("INNGEST_SIGNING_KEY", "signkey-test-bb")] =
  dispatch_all platform (handler_of [])
    [actions_of (register_action [("INNGEST_SIGNING_KEY", "signkey-test-aa")])] /\
  signingKey
    (dispatch_all platform (handler_of [])
       ([actions_of (register_action [("INNGEST_SIGNING_KEY", "signkey-test-aa")])] ++
        [actions_of (view_action [("INNGEST_SIGNING_KEY", "signkey-test-bb")] false false)]))
  = signingKey
      (dispatch_all platform (handler_of [])
         [actions_of (register_action [("INNGEST_SIGNING_KEY", "signkey-test-aa")])]) /\
  key_is_set
    (dispatch_all platform (handler_of [])
       ([actions_of (register_action [("INNGEST_SIGNING_KEY", "signkey-test-aa")])] ++
        [actions_of (view_action [("INNGEST_SIGNING_KEY", "signkey-test-bb")] false false)]))
  = true.
Proof.
  split; [reflexivity|].
  apply (signing_key_first_writer_wins platform (handler_of [])
           [actions_of (register_action [("INNGEST_SIGNING_KEY", "signkey-test-aa")])]
           [actions_of (view_action [("INNGEST_SIGNING_KEY", "signkey-test-bb")] false false)]
           [("INNGEST_SIGNING_KEY", "signkey-test-bb")]).
  reflexivity.
Defined.

Example first_key_is_kept :
  signingKey
    (dispatch_all platform (handler_of [])
       [actions_of (register_action [("INNGEST_SIGNING_KEY", "signkey-test-aa")]);
        actions_of (view_action [("INNGEST_SIGNING_KEY", "signkey-test-bb")] false false)])
  = Some "signkey-test-aa".
Proof. reflexivity. Qed.

(** C10 on an environment that binds the signing-key variable to the empty
    string. *)
Lemma empty_signing_key_not_adopted_witness :
  (env_get [("INNGEST_SIGNING_KEY", "")] (envKeys_SigningKey platform) = Some "" /\
   key_is_set (handler_of []) = false) /\
  upsertSigningKeyFromEnv platform (handler_of []) [("INNGEST_SIGNING_KEY", "")]
    = handler_of [] /\
  key_is_set
    (upsertSigningKeyFromEnv platform (handler_of []) [("INNGEST_SIGNING_KEY", "")]) = false /\
  signingKey
    (fst (DenoFresh.createHandler platform
            (fun _ url host => url_parse platform url (Some host))
            (handler_of [])
            {| DenoFresh.req_url := "/api/inngest"; DenoFresh.req_host := Some "example.com";
               DenoFresh.req_method := "GET"; DenoFresh.req_json := Returned JNull |}
            [("INNGEST_SIGNING_KEY", "")]))
  = signingKey (handler_of []).
Proof.
  split; [split; reflexivity|].
  apply (empty_signing_key_not_adopted platform (handler_of [])
           [("INNGEST_SIGNING_KEY", "")]
           (fun _ url host => url_parse platform url (Some host))
           {| DenoFresh.req_url := "/api/inngest"; DenoFresh.req_host := Some "example.com";
              DenoFresh.req_method := "GET"; DenoFresh.req_json := Returned JNull |});
    reflexivity.
Defined.

(* ------------------------------------------------------------------ *)
(** * Further properties of the handler *)

Ltac case_split_in H :=
  match type of H with
  | context [bind ?c _] =>
      let E := fresh "E" in destruct c eqn:E; simpl in H
  | context [if ?b then _ else _] =>
      let E := fresh "E" in destruct b eqn:E; simpl in H
  | context [let '(_, _) := ?p in _] => destruct p; simpl in H
  end.

Section Construction.

Context {URL : Type}.
Variable P : Platform URL.

Implicit Types (h : InngestCommHandler URL) (fn : InngestFunction URL).

Lemma fns_get_None (k : string) (table : list (string * InngestFunction URL)) :
  fns_get k table = None <-> ~ In k (map fst table).
Proof.
  induction table as [|[k' f] rest IH]; simpl.
  - tauto.
  - destruct (String.eqb_spec k k') as [->|Hne].
    + split; [discriminate|]. intros Hn. exfalso. apply Hn. now left.
    + rewrite IH. split.
      * intros Hn [E|Hin]; [congruence|auto].
      * intros Hn Hin. apply Hn. now right.
Qed.

Lemma fns_get_app_fresh (k : string) (table : list (string * InngestFunction URL)) fn :
  fns_get k table = None -> fns_get k (table ++ [(k, fn)]) = Some fn.
Proof.
  induction table as [|[k' f] rest IH]; simpl.
  - now rewrite String.eqb_refl.
  - destruct (String.eqb k k'); [discriminate|auto].
Qed.

Lemma fns_get_app_old (k : string) (table more : list (string * InngestFunction URL)) fn :
  fns_get k table = Some fn -> fns_get k (table ++ more) = Some fn.
Proof.
  induction table as [|[k' f] rest IH]; simpl; [discriminate|].
  destruct (String.eqb k k'); auto.
Qed.

(** The reducer returns exactly when no id is met twice, and then the table
    is the accumulator followed by the functions under their ids, in order. *)
Lemma collect_fns_Returned (app : string) (functions : list (InngestFunction URL))
  (acc table : list (string * InngestFunction URL)) :
  collect_fns P app functions acc = Returned table ->
  table = (acc ++ map (fun fn => (fn_id fn app, fn)) functions)%list /\
  NoDup (map (fun fn => fn_id fn app) functions) /\
  (forall fn, In fn functions -> ~ In (fn_id fn app) (map fst acc)).
Proof.
  revert acc. induction functions as [|fn rest IH]; intros acc; simpl.
  - intros [= <-]. rewrite app_nil_r. repeat split; [constructor|tauto].
  - destruct (fns_get (fn_id fn app) acc) eqn:Hget; [discriminate|].
    intros Hrest. destruct (IH _ Hrest) as (-> & Hnd & Hfresh).
    rewrite <- app_assoc. split; [reflexivity|]. split.
    + constructor; [|exact Hnd]. intros Hin. apply in_map_iff in Hin.
      destruct Hin as (fn' & Hid & Hin'). apply (Hfresh fn' Hin').
      rewrite map_app, in_app_iff. right. simpl. left. now rewrite Hid.
    + intros fn' [<-|Hin'].
      * now apply fns_get_None.
      * intros Hacc. apply (Hfresh fn' Hin'). rewrite map_app, in_app_iff. now left.
Qed.

Lemma collect_fns_Thrown (app : string) (functions : list (InngestFunction URL))
  (acc : list (string * InngestFunction URL)) (e : JsValue) :
  collect_fns P app functions acc = Thrown e ->
  exists fn,
    In fn functions /\
    e = new_Error P "Error"
          ("Duplicate function ID " ++ dquote ++ fn_id fn app ++ dquote ++
           "; please change a function's name or provide an explicit ID to avoid conflicts.").
Proof.
  revert acc. induction functions as [|fn rest IH]; intros acc; simpl; [discriminate|].
  destruct (fns_get (fn_id fn app) acc) eqn:Hget.
  - intros [= <-]. exists fn. auto.
  - intros Hrest. destruct (IH _ Hrest) as (fn' & Hin & ->). exists fn'. auto.
Qed.

Lemma collect_fns_distinct (app : string) (functions : list (InngestFunction URL))
  (acc : list (string * InngestFunction URL)) :
  NoDup (map (fun fn => fn_id fn app) functions) ->
  (forall fn, In fn functions -> ~ In (fn_id fn app) (map fst acc)) ->
  exists table, collect_fns P app functions acc = Returned table.
Proof.
  revert acc. induction functions as [|fn rest IH]; intros acc Hnd Hfresh; simpl.
  - eauto.
  - inversion Hnd as [|? ? Hnotin Hnd']; subst.
    destruct (fns_get (fn_id fn app) acc) eqn:Hget.
    + exfalso. pose proof (Hfresh fn (or_introl eq_refl)) as Hn.
      apply fns_get_None in Hn. congruence.
    + apply IH; [exact Hnd'|].
      intros fn' Hin'. rewrite map_app, in_app_iff. simpl.
      intros [Hacc|[E|[]]].
      * apply (Hfresh fn'); [now right|exact Hacc].
      * apply Hnotin. apply in_map_iff. exists fn'. auto.
Qed.





(** X2.  Two functions with the same id make the constructor throw the
    duplicate-id error naming one of the functions' ids, whatever the other
    options are: the handler is not built. *)
Theorem constructor_refuses_duplicates (framework : string) (app : string + Inngest)
  (functions : list (InngestFunction URL)) (opts : RegisterOptions) :
  ~ NoDup (map (fun fn => fn_id fn (app_name app)) functions) ->
  exists fn,
    In fn functions /\
    constructor P framework app functions opts =
    Thrown (new_Error P "Error"
              ("Duplicate function ID " ++ dquote ++ fn_id fn (app_name app) ++ dquote ++
               "; please change a function's name or provide an explicit ID to avoid conflicts.")).
Proof.
  intros Hdup. unfold constructor. fold (app_name app).
  destruct (collect_fns P (app_name app) functions []) as [table|e] eqn:Hc; simpl.
  - exfalso. apply Hdup. now destruct (collect_fns_Returned _ _ _ _ Hc) as (_ & Hnd & _).
  - destruct (collect_fns_Thrown _ _ _ _ Hc) as (fn & Hin & ->). eauto.
Qed.


(** X4.  The [User-Agent] a constructed handler sends when it registers is
    the value of the [x-inngest-sdk] header of its responses. *)
Theorem user_agent_is_sdk_header (framework : string) (app : string + Inngest)
  (functions : list (InngestFunction URL)) (opts : RegisterOptions) h :
  constructor P framework app functions opts = Returned h ->
  header_get "User-Agent" (handler_headers h) = Some (sdkHeader_join P h) /\
  header_get "x-inngest-sdk" (sdk_headers P h) = Some (sdkHeader_join P h).
Proof.
  unfold constructor. intros H.
  destruct (collect_fns P _ functions []); simpl in H; [|discriminate].
  destruct (url_parse P _ None); simpl in H; [|discriminate].
  injection H as <-. split; reflexivity.
Qed.

End Construction.

Section Dispatching.

Context {URL : Type}.
Variable P : Platform URL.

Implicit Types (h : InngestCommHandler URL) (actions : Actions URL) (env : Env).

Lemma substring_all (s : string) : substring 0 (String.length s) s = s.
Proof. induction s as [|c s IH]; simpl; congruence. Qed.

Lemma prefix_nonempty_false (p k : string) :
  p <> "" -> k = "" -> String.prefix p k = false.
Proof. intros Hp ->. destruct p; [congruence|reflexivity]. Qed.

Lemma prefix_empty (s : string) : String.prefix "" s = true.
Proof. destruct s; reflexivity. Qed.

Lemma signkey_prefix_test (body : string) :
  signkey_prefix ("signkey-test-" ++ body) = "signkey-test-".
Proof. unfold signkey_prefix. simpl. now rewrite prefix_empty. Qed.

Lemma signkey_prefix_prod (body : string) :
  signkey_prefix ("signkey-prod-" ++ body) = "signkey-prod-".
Proof. unfold signkey_prefix. simpl. now rewrite prefix_empty. Qed.

(** X5.  The credential keeps the key's environment prefix and replaces
    the rest of the key by the digest of its hex decoding: for the key
    [signkey-test-<body>] it is [signkey-test-] followed by the digest of
    [<body>], and likewise for [prod]. *)
Theorem hashedSigningKey_keeps_prefix h (tag body : string) :
  tag = "test" \/ tag = "prod" ->
  signingKey h = Some ("signkey-" ++ tag ++ "-" ++ body) ->
  hashedSigningKey P h = "signkey-" ++ tag ++ "-" ++ sha256_hex_of_hex P body.
Proof.
  intros [-> | ->] Hkey; unfold hashedSigningKey.
  - change (signingKey h = Some ("signkey-test-" ++ body)) in Hkey. rewrite Hkey.
    rewrite signkey_prefix_test. simpl. now rewrite Nat.sub_0_r, substring_all.
  - change (signingKey h = Some ("signkey-prod-" ++ body)) in Hkey. rewrite Hkey.
    rewrite signkey_prefix_prod. simpl. now rewrite Nat.sub_0_r, substring_all.
Qed.

(** X6.  A key without the [signkey-test-] or [signkey-prod-] prefix is
    digested whole, with nothing in front of the digest. *)
Theorem hashedSigningKey_without_prefix h (k : string) :
  signingKey h = Some k ->
  k <> "" ->
  String.prefix "signkey-test-" k = false ->
  String.prefix "signkey-prod-" k = false ->
  hashedSigningKey P h = sha256_hex_of_hex P k.
Proof.
  intros Hkey Hne Ht Hp. unfold hashedSigningKey, signkey_prefix.
  rewrite Hkey, Ht, Hp.
  destruct (String.eqb_spec k ""); [congruence|].
  simpl. now rewrite Nat.sub_0_r, substring_all.
Qed.

Lemma set_signingKey_same h : set_signingKey (signingKey h) h = h.
Proof. destruct h; reflexivity. Qed.

Lemma handleAction_frame h actions :
  fst (handleAction P h actions) =
  set_signingKey (signingKey (fst (handleAction P h actions))) h.
Proof.
  rewrite handleAction_fst.
  destruct (handleAction_try_fst P h (sdk_headers P h) actions) as [E | [env E]];
    unfold sdk_headers in E; rewrite E.
  - now rewrite set_signingKey_same.
  - destruct (upsert_cases P h env) as [-> | (_ & _ & ->)].
    + now rewrite set_signingKey_same.
    + reflexivity.
Qed.

(** X7.  Serving requests changes nothing of a handler but its signing key:
    the app name, the framework name, the function table, the serve host and
    path, the landing-page option, the registration URL and the production
    flag are, after any sequence of requests, what they were. *)
Theorem dispatch_changes_only_the_key h (requests : list (Actions URL)) :
  dispatch_all P h requests =
  set_signingKey (signingKey (dispatch_all P h requests)) h.
Proof.
  revert h. induction requests as [|a rest IH]; intros h; simpl.
  - now rewrite set_signingKey_same.
  - rewrite (IH (fst (handleAction P h a))) at 1.
    rewrite (handleAction_frame h a). reflexivity.
Qed.

(** X8.  The probes are consulted in the order run, view, register, and the
    first that answers or throws decides: once [run] has answered or thrown,
    the other two probes do not matter, and once [run] has declined and
    [view] has answered or thrown, the [register] probe does not matter. *)
Theorem first_probe_decides h actions
  (v : Completion (option (ViewAction URL)))
  (g g' : Completion (option (RegisterAction URL))) :
  (run actions <> Returned None ->
   handleAction P h actions =
   handleAction P h {| run := run actions; view := v; register_probe := g |}) /\
  (run actions = Returned None -> view actions <> Returned None ->
   handleAction P h actions =
   handleAction P h {| run := run actions; view := view actions; register_probe := g' |}).
Proof.
  split.
  - intros Hrun. unfold handleAction, handleAction_try. simpl.
    destruct (run actions) as [[r|]|e]; [reflexivity|congruence|reflexivity].
  - intros Hrun Hview. unfold handleAction, handleAction_try. simpl. rewrite Hrun.
    destruct (view actions) as [[x|]|e]; [reflexivity|congruence|reflexivity].
Qed.

(** X9.  Whatever a run action carries, a response to it has status 200,
    206 or 500 and the JSON content type after the SDK header. *)
Theorem run_response_statuses h actions runRes res :
  run actions = Returned (Some runRes) ->
  snd (handleAction P h actions) = Returned res ->
  (status res = 200%Z \/ status res = 206%Z \/ status res = 500%Z) /\
  headers res = json_headers (sdk_headers P h).
Proof.
  intros Hrun. rewrite (handleAction_run P h actions runRes Hrun).
  destruct (runStep P _ _ _ _) as [sr|e] eqn:Hstep; simpl.
  - destruct (runStep_result P _ _ _ _ sr Hstep) as [[e ->] | (isOp & result & ->)]; simpl.
    + intros [= <-]. simpl. auto.
    + destruct isOp; simpl;
        (destruct (JSON_stringify P result); simpl; [|destruct (JSON_stringify P _)]);
        simpl; try discriminate; intros [= <-]; simpl; auto.
  - destruct (JSON_stringify P e); simpl; [|discriminate].
    intros [= <-]. simpl. auto.
Qed.

(** X10.  An instance without a key adopts the non-empty key of the
    environment of every run, view and register action, whatever the answer
    to the action is, and of no error or bad-method action. *)
Theorem key_adopted_from_dispatched_actions h (a : HandlerAction URL) :
  key_is_set h = false ->
  truthy_str (env_get (action_env a) (envKeys_SigningKey P)) = true ->
  fst (handleAction P h (actions_of a)) =
  if has_probe a
  then set_signingKey (env_get (action_env a) (envKeys_SigningKey P)) h
  else h.
Proof.
  unfold key_is_set. intros Hunset Henv. rewrite handleAction_fst.
  destruct a; simpl in *; unfold upsertSigningKeyFromEnv;
    try rewrite Hunset, Henv; reflexivity.
Qed.

(** X11.  The answer to a view action does not depend on which key the
    instance holds, only on its holding one: the introspection document
    reports the key's presence and nothing of its value. *)
Theorem view_answer_hides_the_key h actions v (k1 k2 : string) :
  run actions = Returned None ->
  view actions = Returned (Some v) ->
  k1 <> "" -> k2 <> "" ->
  snd (handleAction P (set_signingKey (Some k1) h) actions) =
  snd (handleAction P (set_signingKey (Some k2) h) actions).
Proof.
  intros Hrun Hview H1 H2.
  assert (T : forall k, k <> "" -> String.eqb k "" = false).
  { intros k Hk. destruct (String.eqb_spec k ""); [congruence|reflexivity]. }
  unfold handleAction, handleAction_try. rewrite Hrun, Hview. simpl.
  unfold upsertSigningKeyFromEnv, shouldShowLandingPage, reqUrl, registerBody,
    registerFields, configs, sdkHeader.
  simpl. rewrite (T k1 H1), (T k2 H2). simpl.
  repeat (rewrite ?(T k1 H1), ?(T k2 H2);
          match goal with
          | |- context [bind ?c _] => destruct c; simpl
          | |- context [if ?b then _ else _] => destruct b; simpl
          end);
    reflexivity.
Qed.

End Dispatching.

Section Invoking.

Context {URL : Type}.
Variable P : Platform URL.

Implicit Types (h : InngestCommHandler URL) (actions : Actions URL) (env : Env).

Lemma stringify_object (ps : Props) :
  stringify (JObj ps) =
  match members_of ps with
  | Some l => Text ("{" ++ join "," l ++ "}")
  | None => Unserializable
  end.
Proof. reflexivity. Qed.

Lemma members_of_cons_str (k s : string) (rest : Props) :
  members_of ((k, JStr s) :: rest) =
  match members_of rest with
  | Some l => Some ((quote k ++ ":" ++ quote s) :: l)
  | None => None
  end.
Proof. reflexivity. Qed.

Lemma members_of_cons (k : string) (x : JsValue) (rest : Props) :
  members_of ((k, x) :: rest) =
  match stringify x with
  | Unserializable => None
  | NoText => members_of rest
  | Text s =>
      match members_of rest with
      | Some l => Some ((quote k ++ ":" ++ s) :: l)
      | None => None
      end
  end.
Proof. reflexivity. Qed.

Lemma members_of_app (ps qs : Props) :
  members_of (ps ++ qs)%list =
  match members_of ps, members_of qs with
  | Some l, Some m => Some (l ++ m)%list
  | _, _ => None
  end.
Proof.
  induction ps as [|[k x] rest IH].
  - simpl. destruct (members_of qs); reflexivity.
  - change (((k, x) :: rest) ++ qs)%list with ((k, x) :: (rest ++ qs))%list.
    rewrite !members_of_cons, IH.
    destruct (stringify x); destruct (members_of rest); destruct (members_of qs);
      reflexivity.
Qed.

(** An array can be serialized unless one of its elements cannot. *)
Lemma stringify_array_text (items : list JsValue) :
  stringify (JArr items) <> NoText.
Proof.
  simpl. match goal with |- context [match ?o with _ => _ end] => destruct o end;
    discriminate.
Qed.

Lemma registerFields_members h (url : URL) :
  members_of (registerFields P h url) = None <->
  stringify (JArr (configs h url)) = Unserializable.
Proof.
  unfold registerFields.
  rewrite !members_of_cons_str, members_of_cons, !members_of_cons_str.
  pose proof (stringify_array_text (configs h url)) as Hno.
  destruct (stringify (JArr (configs h url))); simpl; split;
    congruence || discriminate || auto.
Qed.

Lemma registerFields_set_hash h (url : URL) (v : JsValue) :
  prop_set "hash" v (registerFields P h url) =
  (registerFields P h url ++ [("hash", v)])%list.
Proof. reflexivity. Qed.

Lemma registerBody_serializable h (url : URL) :
  stringify (JArr (configs h url)) <> Unserializable ->
  exists body text,
    registerBody P h url = Returned body /\
    JSON_stringify P body = Returned (Some text).
Proof.
  pose proof (registerFields_members h url) as Hm.
  unfold registerBody, JSON_stringify. rewrite stringify_object.
  intros Hok.
  destruct (members_of (registerFields P h url)) as [l|] eqn:Hl.
  2: { exfalso. apply Hok. now apply Hm. }
  unfold bind. cbv beta iota. do 2 eexists. split; [reflexivity|].
  rewrite stringify_object, registerFields_set_hash, members_of_app, Hl.
  reflexivity.
Qed.

(** X12.  [registerBody] fails exactly when the configurations of the
    served functions cannot be serialized; otherwise it returns a body, and
    that body can itself be serialized for the registration request. *)
Theorem registerBody_fails_on_configs_only h (url : URL) :
  (stringify (JArr (configs h url)) = Unserializable ->
   registerBody P h url =
   Thrown (new_Error P "TypeError" "Do not know how to serialize a BigInt")) /\
  (stringify (JArr (configs h url)) <> Unserializable ->
   exists body text,
     registerBody P h url = Returned body /\
     JSON_stringify P body = Returned (Some text)).
Proof.
  split; [|apply registerBody_serializable].
  pose proof (registerFields_members h url) as Hm.
  unfold registerBody, JSON_stringify. rewrite stringify_object.
  intros Hbad. apply Hm in Hbad. rewrite Hbad. reflexivity.
Qed.

(** X13.  [runStep] itself throws in one case only: the engine threw a
    value that is not an [Error] and that [JSON.stringify] refuses; what it
    throws then is that [TypeError]. *)
Theorem runStep_throws_only_on_unserializable h (id step : string) (data e : JsValue) :
  runStep P h id step data = Thrown e ->
  exists fn event steps v,
    fns_get id (fns h) = Some fn /\
    parse_run_payload P data = Returned (event, steps) /\
    runFn fn (JObj [("event", event)]) (steps_or_empty steps) = Thrown v /\
    is_Error v = false /\
    stringify v = Unserializable /\
    e = new_Error P "TypeError" "Do not know how to serialize a BigInt".
Proof.
  unfold runStep. intros H.
  destruct (fns_get id (fns h)) as [fn|]; simpl in H; [|discriminate].
  destruct (parse_run_payload P data) as [[event steps]|err] eqn:Hparse; simpl in H.
  - destruct (runFn fn _ _) as [[isOp result]|v] eqn:Hrun; simpl in H.
    + destruct isOp; discriminate.
    + exists fn, event, steps, v.
      remember (JSON_stringify P v) as j eqn:Ej.
      assert (Hne : is_Error v = false /\ j = Thrown e).
      { destruct v; try discriminate H; (split; [reflexivity|]);
          destruct j; simpl in H; congruence. }
      destruct Hne as [Hne ->]. symmetry in Ej. unfold JSON_stringify in Ej.
      destruct (stringify v); try discriminate. injection Ej as <-.
      repeat split; auto.
  - unfold parse_run_payload in Hparse.
    destruct (zod_is_object data && _ && _); [discriminate|].
    injection Hparse as <-.
    destruct (ZodError_is_Error P RunPayloadSchema data) as (m & st & ps & E).
    rewrite E in H. discriminate.
Qed.

(** X14.  When the engine throws a value that is not an [Error] and that
    can be serialized, the fault text is [Unknown error: ] followed by the
    value's JSON text, or by [undefined] when it has none. *)
Theorem runStep_unknown_error_text h (id step : string) (data : JsValue) fn
  (event steps v : JsValue) :
  fns_get id (fns h) = Some fn ->
  parse_run_payload P data = Returned (event, steps) ->
  runFn fn (JObj [("event", event)]) (steps_or_empty steps) = Thrown v ->
  is_Error v = false ->
  stringify v <> Unserializable ->
  runStep P h id step data =
  Returned {| step_status := 500; step_body := JUndefined;
              step_error := Some ("Unknown error: " ++ template_text (json_text v)) |}.
Proof.
  intros Hfn Hparse Hrun Hne Hser. unfold runStep.
  rewrite Hfn. simpl. rewrite Hparse. simpl. rewrite Hrun. simpl.
  unfold JSON_stringify, json_text.
  destruct v; try discriminate; destruct (stringify _) eqn:Hs; simpl in *;
    congruence.
Qed.

(** X15.  For a payload with an [event] object, [steps] absent, [undefined]
    or [null] runs exactly like [steps: {}]: the engine is handed an empty
    object. *)
Theorem missing_steps_run_as_empty h (id step : string) (ps : Props) :
  has_event_object (JObj ps) = true ->
  js_get (JObj ps) "steps" = JUndefined \/ js_get (JObj ps) "steps" = JNull ->
  runStep P h id step (JObj ps) =
  runStep P h id step (JObj (prop_set "steps" (JObj []) ps)).
Proof.
  unfold has_event_object, js_get, own_property. intros Hev Hsteps.
  unfold runStep. destruct (fns_get id (fns h)) as [fn|]; simpl; [|reflexivity].
  unfold parse_run_payload, js_get, own_property. simpl zod_is_object.
  rewrite prop_get_set_same, prop_get_set_other by reflexivity.
  destruct (prop_get "event" ps) as [ev|]; [|discriminate].
  rewrite Hev. simpl.
  destruct (prop_get "steps" ps) as [st|];
    destruct Hsteps as [Hs|Hs]; try rewrite Hs; try discriminate; reflexivity.
Qed.

Lemma register_unfold h (url : URL) (devServerHost : option string) :
  register P h url devServerHost =
  (body <- registerBody P h url;;
   registerURL <- register_target P h devServerHost;;
   match
     (text <- JSON_stringify P body;;
      handler_fetch h (url_href P registerURL) (register_request P h text))
   with
   | Thrown err =>
       Returned (500%Z,
                 "Failed to register" ++
                 match err with
                 | JError _ message _ _ => "; " ++ message
                 | _ => ""
                 end)
   | Returned res =>
       let data := match res_json res with
                   | Returned d => d
                   | Thrown _ => JObj []
                   end in
       ' (st, error, skipped) <- parse_registerRes P data;;
       Returned (st, error)
   end).
Proof. reflexivity. Qed.

Lemma register_target_quiet h (devServerHost : option string) :
  _isProd h = true \/
  devServerAvailable P devServerHost (handler_fetch h) = Returned false ->
  register_target P h devServerHost = Returned (inngestRegisterUrl h).
Proof.
  unfold register_target. intros [-> | Hdev]; [reflexivity|].
  destruct (_isProd h); simpl; [reflexivity|]. now rewrite Hdev.
Qed.

Lemma register_fails_quietly h (url : URL) (devServerHost : option string)
  (e : JsValue) :
  stringify (JArr (configs h url)) <> Unserializable ->
  _isProd h = true \/
  devServerAvailable P devServerHost (handler_fetch h) = Returned false ->
  (forall u init, handler_fetch h u init = Thrown e) ->
  register P h url devServerHost =
  Returned (500%Z,
            "Failed to register" ++
            match e with
            | JError _ message _ _ => "; " ++ message
            | _ => ""
            end).
Proof.
  intros Hser Hquiet Hfetch.
  destruct (registerBody_serializable h url Hser) as (body & text & Hbody & Htext).
  rewrite register_unfold, Hbody, (register_target_quiet h devServerHost Hquiet).
  simpl. rewrite Htext. simpl. rewrite Hfetch. reflexivity.
Qed.

(** X16.  The HTTP status of the registration response is not read.  When
    the response body cannot be parsed as JSON, whatever the response's
    status, the registration reports status 200 and
    [Successfully registered]; the same holds for a body that is an object
    without [status], [error] and [skipped]. *)
Theorem register_defaults h (url : URL) (devServerHost : option string)
  (res : FetchResponse) :
  stringify (JArr (configs h url)) <> Unserializable ->
  _isProd h = true \/
  devServerAvailable P devServerHost (handler_fetch h) = Returned false ->
  (forall u init, handler_fetch h u init = Returned res) ->
  (exists e, res_json res = Thrown e) \/
  (exists ps, res_json res = Returned (JObj ps) /\
              prop_get "status" ps = None /\ prop_get "error" ps = None /\
              prop_get "skipped" ps = None) ->
  register P h url devServerHost = Returned (200%Z, "Successfully registered").
Proof.
  intros Hser Hquiet Hfetch Hjson.
  destruct (registerBody_serializable h url Hser) as (body & text & Hbody & Htext).
  rewrite register_unfold, Hbody, (register_target_quiet h devServerHost Hquiet).
  simpl. rewrite Htext. simpl. rewrite Hfetch.
  destruct Hjson as [[e ->] | (ps & -> & Hst & Her & Hsk)].
  - reflexivity.
  - unfold parse_registerRes, js_get, own_property. simpl.
    rewrite Hst, Her, Hsk. reflexivity.
Qed.

(** X17.  A registration response whose JSON body is not an object, or
    whose [status] is a string, is not defaulted: [register] throws the
    [ZodError] of the response schema. *)
Theorem register_refuses_ill_typed_response h (url : URL) (devServerHost : option string)
  (res : FetchResponse) (data : JsValue) :
  stringify (JArr (configs h url)) <> Unserializable ->
  _isProd h = true \/
  devServerAvailable P devServerHost (handler_fetch h) = Returned false ->
  (forall u init, handler_fetch h u init = Returned res) ->
  res_json res = Returned data ->
  zod_is_object data = false \/ (exists s, js_get data "status" = JStr s) ->
  register P h url devServerHost = Thrown (ZodError P RegisterResSchema data).
Proof.
  intros Hser Hquiet Hfetch Hjson Hbad.
  destruct (registerBody_serializable h url Hser) as (body & text & Hbody & Htext).
  rewrite register_unfold, Hbody, (register_target_quiet h devServerHost Hquiet).
  simpl. rewrite Htext. simpl. rewrite Hfetch, Hjson.
  unfold parse_registerRes.
  destruct Hbad as [-> | [s Hs]]; [reflexivity|].
  rewrite Hs. destruct (zod_is_object data); reflexivity.
Qed.

(** X18.  In production the dev server is not probed: whatever the probe
    would do, the registration is posted to the handler's registration URL
    and its outcome is read from that response. *)
Theorem register_in_production h (url : URL) (devServerHost : option string)
  (res : FetchResponse) (st : Z) (message : string) (skipped : bool) :
  stringify (JArr (configs h url)) <> Unserializable ->
  _isProd h = true ->
  (forall init, handler_fetch h (url_href P (inngestRegisterUrl h)) init = Returned res) ->
  parse_registerRes P (match res_json res with
                       | Returned d => d
                       | Thrown _ => JObj []
                       end) = Returned (st, message, skipped) ->
  register P h url devServerHost = Returned (st, message).
Proof.
  intros Hser Hprod Hfetch Hparse.
  destruct (registerBody_serializable h url Hser) as (body & text & Hbody & Htext).
  rewrite register_unfold, Hbody,
    (register_target_quiet h devServerHost (or_introl Hprod)).
  simpl. rewrite Htext. simpl. rewrite Hfetch. simpl.
  rewrite Hparse. reflexivity.
Qed.

(** X19.  Outside production, when the dev server answers the probe, the
    registration is posted to the dev server's [/fn/register] and its outcome
    is read from that response, whatever [fetch] does for other URLs. *)
Theorem register_prefers_dev_server h (url dev : URL) (devServerHost : option string)
  (res : FetchResponse) (st : Z) (message : string) (skipped : bool) :
  stringify (JArr (configs h url)) <> Unserializable ->
  _isProd h = false ->
  devServerAvailable P devServerHost (handler_fetch h) = Returned true ->
  devServerUrl P devServerHost (Some "/fn/register") = Returned dev ->
  (forall init, handler_fetch h (url_href P dev) init = Returned res) ->
  parse_registerRes P (match res_json res with
                       | Returned d => d
                       | Thrown _ => JObj []
                       end) = Returned (st, message, skipped) ->
  register P h url devServerHost = Returned (st, message).
Proof.
  intros Hser Hprod Havail Hdev Hfetch Hparse.
  destruct (registerBody_serializable h url Hser) as (body & text & Hbody & Htext).
  rewrite register_unfold, Hbody. unfold register_target.
  rewrite Hprod. simpl. rewrite Havail. simpl. rewrite Hdev. simpl.
  rewrite Htext. simpl. rewrite Hfetch. simpl. rewrite Hparse. reflexivity.
Qed.

End Invoking.

Section Registering.

Context {URL : Type}.
Variable P : Platform URL.

Implicit Types (h : InngestCommHandler URL) (actions : Actions URL) (env : Env).

(** X20.  A register action received while the network is down is answered,
    not thrown: with no serve host configured, the dev server absent (or in
    production) and a [fetch] that throws an [Error] with message [m], the
    response has status 500 and the body
    [{"message":"Failed to register; m"}]. *)
Theorem register_action_when_network_down h actions (g : RegisterAction URL)
  (ename m : string) (st : option string) (ps : Props) :
  run actions = Returned None ->
  view actions = Returned None ->
  register_probe actions = Returned (Some g) ->
  truthy_str (serveHost h) = false ->
  (forall u, stringify (JArr (configs h u)) <> Unserializable) ->
  _isProd h = true \/
  devServerAvailable P (env_get (register_env g) (envKeys_DevServerUrl P))
    (handler_fetch h) = Returned false ->
  (forall u init, handler_fetch h u init = Thrown (JError ename m st ps)) ->
  snd (handleAction P h actions) =
  Returned {| status := 500;
              headers := json_headers (sdk_headers P h);
              body := Some ("{" ++ quote "message" ++ ":" ++
                            quote ("Failed to register; " ++ m) ++ "}") |}.
Proof.
  intros Hrun Hview Hreg Hhost Hser Hquiet Hfetch.
  unfold handleAction, handleAction_try. rewrite Hrun, Hview, Hreg. simpl.
  destruct (upsert_cases P h (register_env g)) as [E | (_ & _ & E)]; rewrite E;
    unfold reqUrl; simpl; rewrite Hhost; simpl;
    rewrite (register_fails_quietly P _ _ _ (JError ename m st ps)); auto.
  exact (Hser _).
Qed.

End Registering.

Section FreshProperties.

Context {URL : Type}.
Variable P : Platform URL.
Variable reqUrl_of_host : InngestCommHandler URL -> string -> string -> Completion URL.

Implicit Types (h : InngestCommHandler URL) (req : DenoFresh.Request) (env : Env).

Lemma fresh_state h req env (u : URL) :
  fresh_url reqUrl_of_host h req = Returned u ->
  fst (DenoFresh.createHandler P reqUrl_of_host h req env) =
  set_isProd (fresh_env_production env) (upsertSigningKeyFromEnv P h env).
Proof.
  unfold fresh_url, DenoFresh.createHandler. intros ->. reflexivity.
Qed.

Lemma is_production_spec env (k : string) :
  DenoFresh.is_production env k = true <-> env_get env k = Some "production".
Proof.
  unfold DenoFresh.is_production. destruct (env_get env k) as [v|].
  - rewrite String.eqb_eq. split; congruence.
  - split; discriminate.
Qed.

(** X21.  The Deno Fresh handler recomputes the production flag on every
    request it can resolve a URL for, from that request's environment alone:
    afterwards the flag is set exactly when [VERCEL_ENV], [CONTEXT] or
    [ENVIRONMENT] is [production], whatever it was before; nothing but the
    flag and the signing key changes. *)
Theorem fresh_production_flag_per_request h req env (u : URL) :
  fresh_url reqUrl_of_host h req = Returned u ->
  (_isProd (fst (DenoFresh.createHandler P reqUrl_of_host h req env)) = true <->
   env_get env "VERCEL_ENV" = Some "production" \/
   env_get env "CONTEXT" = Some "production" \/
   env_get env "ENVIRONMENT" = Some "production") /\
  fst (DenoFresh.createHandler P reqUrl_of_host h req env) =
  set_isProd (_isProd (fst (DenoFresh.createHandler P reqUrl_of_host h req env)))
    (set_signingKey (signingKey (fst (DenoFresh.createHandler P reqUrl_of_host h req env))) h).
Proof.
  intros Hu. rewrite (fresh_state h req env u Hu). split.
  - simpl. unfold fresh_env_production.
    rewrite !orb_true_iff, !is_production_spec. tauto.
  - destruct (upsert_cases P h env) as [-> | (_ & _ & ->)]; destruct h; reflexivity.
Qed.

(** X22.  In production the Deno Fresh handler answers every GET with 405
    and no body, introspection or not. *)
Theorem fresh_get_in_production h req env (u : URL) :
  fresh_url reqUrl_of_host h req = Returned u ->
  DenoFresh.req_method req = "GET" ->
  fresh_env_production env = true ->
  snd (DenoFresh.createHandler P reqUrl_of_host h req env) =
  Returned {| status := 405; headers := sdk_headers P h; body := None |}.
Proof.
  unfold fresh_url, fresh_env_production, DenoFresh.createHandler.
  intros -> -> Hprod. simpl. rewrite Hprod. reflexivity.
Qed.

(** X23.  A POST whose URL lacks the function id or the step id, or has an
    empty one, is not answered: the Deno Fresh handler throws the
    [ZodError] of the query schema, and the request body is not read. *)
Theorem fresh_post_without_ids_throws h req env (u : URL) :
  fresh_url reqUrl_of_host h req = Returned u ->
  DenoFresh.req_method req = "POST" ->
  truthy_str (url_get_param P (url_delete_param P u (queryKeys_Introspect P))
                (queryKeys_FnId P)) = false \/
  truthy_str (url_get_param P (url_delete_param P u (queryKeys_Introspect P))
                (queryKeys_StepId P)) = false ->
  exists input,
    snd (DenoFresh.createHandler P reqUrl_of_host h req env) =
    Thrown (ZodError P FreshQuerySchema input).
Proof.
  unfold fresh_url, DenoFresh.createHandler. intros -> -> Hq. simpl.
  unfold DenoFresh.parse_query.
  destruct (url_get_param P _ (queryKeys_FnId P)) as [f|];
    destruct (url_get_param P _ (queryKeys_StepId P)) as [s|];
    simpl in *; try (eexists; reflexivity).
  destruct (String.eqb f ""), (String.eqb s ""); simpl in *;
    try (eexists; reflexivity).
  destruct Hq; discriminate.
Qed.

(** X24.  When the request's URL cannot be resolved, the Deno Fresh handler
    answers 500 with the JSON text of the failure and leaves the instance
    untouched: no key is adopted and the production flag is not
    recomputed. *)
Theorem fresh_unresolved_url h req env (e : JsValue) :
  fresh_url reqUrl_of_host h req = Thrown e ->
  stringify e <> Unserializable ->
  DenoFresh.createHandler P reqUrl_of_host h req env =
  (h, Returned {| status := 500; headers := sdk_headers P h; body := json_text e |}).
Proof.
  unfold fresh_url, DenoFresh.createHandler. intros -> Hser.
  unfold JSON_stringify, json_text, bind.
  destruct (stringify e); [reflexivity|reflexivity|congruence].
Qed.

(** X25.  Every response of the Deno Fresh handler has the [x-inngest-sdk]
    header, and a method other than GET, PUT and POST gets 405 with no
    body. *)
Theorem fresh_responses_carry_sdk_header h req env res :
  snd (DenoFresh.createHandler P reqUrl_of_host h req env) = Returned res ->
  header_get "x-inngest-sdk" (headers res) = Some (sdkHeader_join P h) /\
  (DenoFresh.req_method req <> "GET" -> DenoFresh.req_method req <> "PUT" ->
   DenoFresh.req_method req <> "POST" -> forall u,
   fresh_url reqUrl_of_host h req = Returned u ->
   res = {| status := 405; headers := sdk_headers P h; body := None |}).
Proof.
  unfold fresh_url, DenoFresh.createHandler. intros H. split.
  - destruct (reqUrl_of_host h _ _) as [u|e]; simpl in H.
    + repeat case_split_in H; try discriminate; injection H as <-; reflexivity.
    + repeat case_split_in H; try discriminate; injection H as <-; reflexivity.
  - intros Hg Hp Ho u Hu. rewrite Hu in H. simpl in H.
    destruct (String.eqb_spec (DenoFresh.req_method req) "GET"); [congruence|].
    destruct (String.eqb_spec (DenoFresh.req_method req) "PUT"); [congruence|].
    destruct (String.eqb_spec (DenoFresh.req_method req) "POST"); [congruence|].
    now injection H as <-.
Qed.

End FreshProperties.

Section DeserializeProperties.

Context {URL : Type}.
Variable P : Platform URL.
Variable cjsDeserializeError : JsValue -> Completion JsValue.

Lemma every_own_two (subject : JsValue) :
  every_own P subject ["name"; "message"] =
  match subject with
  | JUndefined | JNull =>
      Thrown (new_Error P "TypeError" "Cannot convert undefined or null to object")
  | _ =>
      Returned (match own_property subject "name", own_property subject "message" with
                | Some _, Some _ => true
                | _, _ => false
                end)
  end.
Proof.
  destruct subject; simpl; try reflexivity;
    repeat match goal with
           | |- context [match ?o with Some _ => _ | None => _ end] =>
               destruct o; simpl
           end; reflexivity.
Qed.

(** X26.  [deserializeError] always returns an error.  A subject without an
    own [name] or an own [message] (among them [null], [undefined],
    strings, arrays, and an [Error] instance, whose [name] is inherited)
    gives the placeholder [Unknown error; could not reserialize] with no
    stack, and the library is not consulted; so does a subject the library
    throws on. *)
Theorem deserializeError_placeholder (subject : JsValue) :
  (own_property subject "name" = None \/ own_property subject "message" = None ->
   deserializeError P cjsDeserializeError subject = could_not_reserialize) /\
  ((exists e, cjsDeserializeError subject = Thrown e) ->
   deserializeError P cjsDeserializeError subject = could_not_reserialize) /\
  (deserializeError P cjsDeserializeError subject = could_not_reserialize \/
   cjsDeserializeError subject =
     Returned (deserializeError P cjsDeserializeError subject)).
Proof.
  unfold deserializeError. rewrite every_own_two.
  split; [|split].
  - intros Hmiss. destruct subject; simpl in *; try reflexivity;
      destruct Hmiss as [Hm|Hm]; try discriminate; try rewrite Hm;
      repeat match goal with
             | |- context [match ?o with Some _ => _ | None => _ end] =>
                 destruct o; simpl
             end; try reflexivity; discriminate.
  - intros [e He]. destruct subject; simpl; try reflexivity;
      repeat match goal with
             | |- context [match ?o with Some _ => _ | None => _ end] =>
                 destruct o; simpl
             end; try rewrite He; reflexivity.
  - destruct subject; simpl; auto;
      repeat match goal with
             | |- context [match ?o with Some _ => _ | None => _ end] =>
                 destruct o; simpl
             end; auto;
      destruct (cjsDeserializeError _); auto.
Qed.

End DeserializeProperties.

Section LandingPage.

Context {URL : Type}.
Variable P : Platform URL.

Implicit Types (h : InngestCommHandler URL) (actions : Actions URL) (env : Env).

(** Adoption is idempotent: adopting twice from the same environment
    snapshot leaves what adopting once left. *)
Lemma upsert_idempotent h env :
  upsertSigningKeyFromEnv P (upsertSigningKeyFromEnv P h env) env =
  upsertSigningKeyFromEnv P h env.
Proof.
  destruct (upsert_cases P h env) as [E | (_ & Henv & E)]; rewrite E.
  - exact E.
  - apply upsert_when_set. unfold key_is_set. simpl. exact Henv.
Qed.

(** X27.  The [landingPage] option beats the environment: outside
    production, a handler configured with [landingPage: true] serves the
    landing page to a view without introspection, and one configured with
    [landingPage: false] answers every view with 405, whatever the
    landing-page variable of the request's environment says. *)
Theorem landingPage_option_beats_env h actions v (b : bool) :
  run actions = Returned None ->
  view actions = Returned (Some v) ->
  showLandingPage h = Some b ->
  _isProd h = false ->
  view_isIntrospection v = false ->
  snd (handleAction P h actions) =
  Returned (if b
            then {| status := 200;
                    headers :=
                      (sdk_headers P h ++ [("Content-Type", "text/html; charset=utf-8")])%list;
                    body := Some (landing P) |}
            else {| status := 405; headers := sdk_headers P h; body := Some "" |}).
Proof.
  intros Hrun Hview Hopt Hprod Hintro.
  unfold handleAction, handleAction_try. rewrite Hrun, Hview. simpl.
  rewrite upsert_isProd, Hprod. unfold shouldShowLandingPage.
  destruct (upsert_cases P h (view_env v)) as [E | (_ & _ & E)]; rewrite E; simpl;
    rewrite Hopt, Hintro; destruct b; reflexivity.
Qed.

End LandingPage.

Section PrettyProperties.

Import Pretty.

Variable chalk : Chalk.
Variable trim : string -> string.
Variable current_stack : option string.

Lemma string_app_assoc (a b c : string) : (a ++ b) ++ c = a ++ (b ++ c).
Proof. induction a as [|x a IH]; simpl; congruence. Qed.

Lemma join_framed (sep b z : string) (l : list string) :
  exists middle, join sep (b :: l ++ [z]) = b ++ middle ++ sep ++ z.
Proof.
  revert b. induction l as [|x l IH]; intros b.
  - exists "". reflexivity.
  - destruct (IH x) as [mid Hmid].
    exists (sep ++ x ++ mid).
    change (join sep (b :: (x :: l) ++ [z])) with (b ++ sep ++ join sep (x :: l ++ [z])).
    rewrite Hmid. now rewrite !string_app_assoc.
Qed.

Lemma join_cons2 (sep a b : string) (l : list string) :
  join sep (a :: b :: l) = a ++ sep ++ join sep (b :: l).
Proof. reflexivity. Qed.

Lemma filter_framed (a b : string) (rest : list string) :
  non_empty a = true -> non_empty b = true ->
  filter_strings (a :: b :: rest ++ [a]) =
  (a :: b :: filter_strings rest ++ [a])%list.
Proof.
  intros Ha Hb. unfold filter_strings. simpl. rewrite Ha, Hb.
  rewrite filter_app. simpl. now rewrite Ha.
Qed.

Lemma filter_framed3 (a b x y z : string) :
  non_empty a = true -> non_empty b = true ->
  filter_strings [a; b; x; y; z; a] =
  (a :: b :: filter_strings [x; y; z] ++ [a])%list.
Proof. apply (filter_framed a b [x; y; z]). Qed.

Lemma header_non_empty (e : PrettyError) :
  non_empty (header_of chalk trim current_stack e) = true.
Proof.
  unfold header_of, icon_of.
  destruct (stack e); destruct (type e) as [[]|]; reflexivity.
Qed.

Lemma string_app_nil_r (a : string) : a ++ "" = a.
Proof. induction a as [|x a IH]; simpl; congruence. Qed.

Lemma header_split (e : PrettyError) :
  exists extra,
    header_of chalk trim current_stack e =
    (icon_of e ++ "  " ++ bold_underline chalk (trim (whatHappened e))) ++ extra.
Proof.
  unfold header_of. destruct (stack e).
  - eexists. reflexivity.
  - exists "". now rewrite string_app_nil_r.
Qed.

(** X28.  Every message of [prettyError] is framed: it is the colour of its
    type (red unless the type is [warn]) applied to a text that starts with
    the splitter line, a blank line, the icon, two spaces and the emphasised
    trimmed headline, and that ends with a blank line and the splitter
    line. *)
Theorem prettyError_framed (e : PrettyError) :
  exists middle,
    prettyError chalk trim current_stack e =
    colorFn_of chalk e
      (splitter ++ nl ++ nl ++
       icon_of e ++ "  " ++ bold_underline chalk (trim (whatHappened e)) ++
       middle ++ nl ++ nl ++ splitter).
Proof.
  unfold prettyError.
  rewrite (filter_framed3 splitter (header_of chalk trim current_stack e)
             _ _ _ eq_refl (header_non_empty e)).
  destruct (join_framed (nl ++ nl) (header_of chalk trim current_stack e) splitter
              (filter_strings [body_of trim e; trailer_of trim e;
                               match code e with
                               | Some c => "Code: " ++ ErrCode_text c
                               | None => ""
                               end])) as [mid Hmid].
  rewrite join_cons2, Hmid.
  destruct (header_split e) as [extra ->].
  exists (extra ++ mid). f_equal. now rewrite !string_app_assoc.
Qed.

Lemma filter_trim_filter (l : list string) :
  filter_strings (map trim (filter (fun s => non_empty (trim s)) l)) =
  filter_strings (map trim l).
Proof.
  unfold filter_strings. induction l as [|s l IH]; simpl; [reflexivity|].
  destruct (non_empty (trim s)) eqn:E; simpl; rewrite ?E, IH; reflexivity.
Qed.

Lemma number_steps_nth (from k : nat) (l : list string) :
  nth_error (number_steps from l) k =
  option_map (fun s => tab ++ string_of_Z (Z.of_nat (from + k + 1)) ++ ". " ++ s)
    (nth_error l k).
Proof.
  revert from k. induction l as [|s l IH]; intros from k.
  - destruct k; reflexivity.
  - destruct k; simpl.
    + now rewrite Nat.add_0_r.
    + rewrite IH. now rewrite Nat.add_succ_comm.
Qed.

(** X29.  The steps of an array [toFixNow] are trimmed, blank ones are
    dropped, and the rest are numbered after the dropping: the message is the
    same as for the array without its blank steps, and the step at position
    [k] of the remaining ones is printed as a tab, [k + 1], a dot, a space
    and the trimmed step. *)
Theorem prettyError_numbers_remaining_steps
  (t : option MessageType) (wh : string) (r w c o : option string) (st : bool)
  (cd : option ErrCode) (steps : list string) (k : nat) :
  prettyError chalk trim current_stack
    {| type := t; whatHappened := wh; reassurance := r; why := w; consequences := c;
       toFixNow := Some (inr steps); otherwise := o; stack := st; code := cd |} =
  prettyError chalk trim current_stack
    {| type := t; whatHappened := wh; reassurance := r; why := w; consequences := c;
       toFixNow := Some (inr (filter (fun s => non_empty (trim s)) steps));
       otherwise := o; stack := st; code := cd |} /\
  nth_error (number_steps 0 (filter_strings (map trim steps))) k =
  option_map (fun s => tab ++ string_of_Z (Z.of_nat (k + 1)) ++ ". " ++ s)
    (nth_error (filter_strings (map trim steps)) k).
Proof.
  split.
  - unfold prettyError, body_of, toFixNowStr_of. simpl.
    now rewrite filter_trim_filter.
  - apply number_steps_nth.
Qed.

(** X30.  A field that is blank, its trimmed text being empty, is left out
    like an absent one: this holds for [reassurance], [why], [consequences]
    and [otherwise], and for a [toFixNow] that is a blank string or an array
    of blank steps. *)
Theorem prettyError_drops_blank_fields
  (t : option MessageType) (wh : string) (r w c o : option string)
  (fx : option (string + list string)) (st : bool) (cd : option ErrCode)
  (blank : string) (blanks : list string) :
  trim blank = "" ->
  Forall (fun s => trim s = "") blanks ->
  let pe r w c fx o :=
    prettyError chalk trim current_stack
      {| type := t; whatHappened := wh; reassurance := r; why := w; consequences := c;
         toFixNow := fx; otherwise := o; stack := st; code := cd |} in
  pe (Some blank) w c fx o = pe None w c fx o /\
  pe r (Some blank) c fx o = pe r None c fx o /\
  pe r w (Some blank) fx o = pe r w None fx o /\
  pe r w c fx (Some blank) = pe r w c fx None /\
  pe r w c (Some (inl blank)) o = pe r w c None o /\
  pe r w c (Some (inr blanks)) o = pe r w c None o.
Proof.
  intros Hblank Hblanks pe. unfold pe, prettyError, body_of, trailer_of, toFixNowStr_of.
  simpl. rewrite Hblank. simpl.
  assert (Hnone : filter_strings (map trim blanks) = []).
  { unfold filter_strings. induction Hblanks as [|s l Hs _ IH]; simpl; [reflexivity|].
    now rewrite Hs. }
  rewrite Hnone. simpl.
  repeat split; destruct r, w, c; simpl; reflexivity.
Qed.

End PrettyProperties.

(* ------------------------------------------------------------------ *)
(** * The further properties on concrete inputs *)


Lemma constructor_refuses_duplicates_witness :
  exists fn,
    In fn [ok_fn; ok_fn] /\
    constructor platform "test" (inl "app") [ok_fn; ok_fn] no_options =
    Thrown (new_Error platform "Error"
              ("Duplicate function ID " ++ dquote ++ fn_id fn (app_name (inl "app")) ++ dquote ++
               "; please change a function's name or provide an explicit ID to avoid conflicts.")).
Proof.
  apply (constructor_refuses_duplicates platform "test" (inl "app") [ok_fn; ok_fn] no_options).
  intros Hnd. inversion Hnd as [|x l Hnotin _]. apply Hnotin. left. reflexivity.
Defined.


Lemma user_agent_is_sdk_header_witness :
  header_get "User-Agent" (handler_headers (handler_of [ok_fn])) =
    Some (sdkHeader_join platform (handler_of [ok_fn])) /\
  header_get "x-inngest-sdk" (sdk_headers platform (handler_of [ok_fn])) =
    Some (sdkHeader_join platform (handler_of [ok_fn])).
Proof.
  apply (user_agent_is_sdk_header platform "test" (inl "app") [ok_fn] no_options
           (handler_of [ok_fn])).
  reflexivity.
Defined.

Lemma hashedSigningKey_keeps_prefix_witness :
  hashedSigningKey platform (set_signingKey (Some "signkey-prod-0a1b") (handler_of [])) =
  "signkey-" ++ "prod" ++ "-" ++ sha256_hex_of_hex platform "0a1b".
Proof.
  apply (hashedSigningKey_keeps_prefix platform
           (set_signingKey (Some "signkey-prod-0a1b") (handler_of [])) "prod" "0a1b").
  - right. reflexivity.
  - reflexivity.
Defined.

Lemma hashedSigningKey_without_prefix_witness :
  hashedSigningKey platform (set_signingKey (Some "0a1b") (handler_of [])) =
  sha256_hex_of_hex platform "0a1b".
Proof.
  apply (hashedSigningKey_without_prefix platform
           (set_signingKey (Some "0a1b") (handler_of [])) "0a1b");
    try reflexivity.
  discriminate.
Defined.

Lemma first_probe_decides_witness :
  handleAction platform (handler_of [ok_fn]) (actions_of (run_action "app-f" empty_run)) =
  handleAction platform (handler_of [ok_fn])
    {| run := run (actions_of (run_action "app-f" empty_run));
       view := Thrown JNull;
       register_probe := Thrown JNull |}.
Proof.
  apply (proj1 (first_probe_decides platform (handler_of [ok_fn])
                  (actions_of (run_action "app-f" empty_run))
                  (Thrown JNull) (Thrown JNull) (Thrown JNull))).
  discriminate.
Defined.

Lemma run_response_statuses_witness :
  (206%Z = 200%Z \/ 206%Z = 206%Z \/ 206%Z = 500%Z) /\
  json_headers (sdk_headers platform (handler_of [wait_fn])) =
  json_headers (sdk_headers platform (handler_of [wait_fn])).
Proof.
  apply (run_response_statuses platform (handler_of [wait_fn])
           (actions_of (run_action "app-w" empty_run))
           {| run_fnId := "app-w"; run_data := empty_run; run_env := [];
              run_isProduction := false; run_url := endpoint |}
           {| status := 206;
              headers := json_headers (sdk_headers platform (handler_of [wait_fn]));
              body := json_text (JObj [("op", JStr "wait")]) |});
    reflexivity.
Defined.

Lemma key_adopted_from_dispatched_actions_witness :
  fst (handleAction platform (handler_of [])
         (actions_of (view_action [("INNGEST_SIGNING_KEY", "signkey-test-aa")] false true))) =
  set_signingKey (Some "signkey-test-aa") (handler_of []).
Proof.
  apply (key_adopted_from_dispatched_actions platform (handler_of [])
           (view_action [("INNGEST_SIGNING_KEY", "signkey-test-aa")] false true));
    reflexivity.
Defined.

Lemma view_answer_hides_the_key_witness :
  snd (handleAction platform (set_signingKey (Some "signkey-test-aa") (handler_of [ok_fn]))
         (actions_of (view_action [] true false))) =
  snd (handleAction platform (set_signingKey (Some "signkey-prod-bb") (handler_of [ok_fn]))
         (actions_of (view_action [] true false))).
Proof.
  apply (view_answer_hides_the_key platform (handler_of [ok_fn])
           (actions_of (view_action [] true false))
           {| view_env := []; view_url := endpoint; view_isIntrospection := true;
              view_isProduction := false |});
    try reflexivity; discriminate.
Defined.

Lemma registerBody_fails_on_configs_only_witness :
  exists body text,
    registerBody platform (handler_of [ok_fn]) endpoint = Returned body /\
    JSON_stringify platform body = Returned (Some text).
Proof.
  apply (proj2 (registerBody_fails_on_configs_only platform (handler_of [ok_fn]) endpoint)).
  vm_compute. discriminate.
Defined.

Lemma runStep_throws_only_on_unserializable_witness :
  exists fn event steps v,
    fns_get "app-t" (fns (handler_of [throwing_fn "t" (JBigInt 1)])) = Some fn /\
    parse_run_payload platform empty_run = Returned (event, steps) /\
    runFn fn (JObj [("event", event)]) (steps_or_empty steps) = Thrown v /\
    is_Error v = false /\
    stringify v = Unserializable /\
    new_Error platform "TypeError" "Do not know how to serialize a BigInt" =
    new_Error platform "TypeError" "Do not know how to serialize a BigInt".
Proof.
  apply (runStep_throws_only_on_unserializable platform
           (handler_of [throwing_fn "t" (JBigInt 1)]) "app-t" "step" empty_run).
  reflexivity.
Defined.

Lemma runStep_unknown_error_text_witness :
  runStep platform (handler_of [throwing_fn "t" (JStr "boom")]) "app-t" "step" empty_run =
  Returned {| step_status := 500; step_body := JUndefined;
              step_error :=
                Some ("Unknown error: " ++ template_text (json_text (JStr "boom"))) |}.
Proof.
  apply (runStep_unknown_error_text platform (handler_of [throwing_fn "t" (JStr "boom")])
           "app-t" "step" empty_run (throwing_fn "t" (JStr "boom")) (JObj []) (JObj [])
           (JStr "boom"));
    try reflexivity.
  vm_compute. discriminate.
Defined.

Lemma missing_steps_run_as_empty_witness :
  runStep platform (handler_of [ok_fn]) "app-f" "step"
    (JObj [("event", JObj []); ("steps", JNull)]) =
  runStep platform (handler_of [ok_fn]) "app-f" "step"
    (JObj (prop_set "steps" (JObj []) [("event", JObj []); ("steps", JNull)])).
Proof.
  apply (missing_steps_run_as_empty platform (handler_of [ok_fn]) "app-f" "step"
           [("event", JObj []); ("steps", JNull)]).
  - reflexivity.
  - right. reflexivity.
Defined.

Lemma register_defaults_witness :
  register platform (handler_with (Some (answering bad_gateway)) None [ok_fn]) endpoint None =
  Returned (200%Z, "Successfully registered").
Proof.
  apply (register_defaults platform (handler_with (Some (answering bad_gateway)) None [ok_fn])
           endpoint None bad_gateway).
  - vm_compute. discriminate.
  - right. reflexivity.
  - intros u init. reflexivity.
  - left. eexists. reflexivity.
Defined.

Lemma register_refuses_ill_typed_response_witness :
  register platform (handler_with (Some (answering ill_typed_response)) None [ok_fn])
    endpoint None =
  Thrown (ZodError platform RegisterResSchema (JObj [("status", JStr "200")])).
Proof.
  apply (register_refuses_ill_typed_response platform
           (handler_with (Some (answering ill_typed_response)) None [ok_fn])
           endpoint None ill_typed_response (JObj [("status", JStr "200")])).
  - vm_compute. discriminate.
  - right. reflexivity.
  - intros u init. reflexivity.
  - reflexivity.
  - right. eexists. reflexivity.
Defined.

Lemma register_in_production_witness :
  register platform_with_dev_server
    (set_isProd true (handler_with (Some (answering skipped_response)) None [ok_fn]))
    endpoint None =
  Returned (200%Z, "Successfully registered").
Proof.
  apply (register_in_production platform_with_dev_server
           (set_isProd true (handler_with (Some (answering skipped_response)) None [ok_fn]))
           endpoint None skipped_response 200%Z "Successfully registered" true).
  - vm_compute. discriminate.
  - reflexivity.
  - intros init. reflexivity.
  - reflexivity.
Defined.

Lemma register_prefers_dev_server_witness :
  register platform_with_dev_server
    (handler_with (Some (answering skipped_response)) None [ok_fn]) endpoint None =
  Returned (200%Z, "Successfully registered").
Proof.
  apply (register_prefers_dev_server platform_with_dev_server
           (handler_with (Some (answering skipped_response)) None [ok_fn]) endpoint
           {| u_origin := "http://127.0.0.1:8288"; u_path := "/fn/register"; u_query := [] |}
           None skipped_response 200%Z "Successfully registered" true).
  - vm_compute. discriminate.
  - reflexivity.
  - reflexivity.
  - reflexivity.
  - intros init. reflexivity.
  - reflexivity.
Defined.

Lemma register_action_when_network_down_witness :
  snd (handleAction platform (handler_of [ok_fn]) (actions_of (register_action []))) =
  Returned {| status := 500;
              headers := json_headers (sdk_headers platform (handler_of [ok_fn]));
              body := Some ("{" ++ quote "message" ++ ":" ++
                            quote ("Failed to register; " ++ "fetch failed") ++ "}") |}.
Proof.
  apply (register_action_when_network_down platform (handler_of [ok_fn])
           (actions_of (register_action []))
           {| register_env := []; register_url := endpoint; register_isProduction := false |}
           "TypeError" "fetch failed" None []).
  - reflexivity.
  - reflexivity.
  - reflexivity.
  - reflexivity.
  - intros u. vm_compute. discriminate.
  - right. reflexivity.
  - intros u init. reflexivity.
Defined.

Lemma fresh_production_flag_per_request_witness :
  _isProd (fst (DenoFresh.createHandler platform fresh_reqUrl (handler_of [ok_fn])
                  (fresh_request "GET") [("CONTEXT", "production")])) = true /\
  _isProd (fst (DenoFresh.createHandler platform fresh_reqUrl
                  (set_isProd true (handler_of [ok_fn]))
                  (fresh_request "GET") [("CONTEXT", "development")])) = false.
Proof.
  split.
  - apply (proj1 (fresh_production_flag_per_request platform fresh_reqUrl (handler_of [ok_fn])
                    (fresh_request "GET") [("CONTEXT", "production")]
                    {| u_origin := "https://example.com"; u_path := "/api/inngest";
                       u_query := [] |} eq_refl)).
    right. left. reflexivity.
  - reflexivity.
Defined.

Lemma fresh_get_in_production_witness :
  snd (DenoFresh.createHandler platform fresh_reqUrl (handler_of [ok_fn])
         (fresh_request "GET") [("VERCEL_ENV", "production")]) =
  Returned {| status := 405; headers := sdk_headers platform (handler_of [ok_fn]);
              body := None |}.
Proof.
  apply (fresh_get_in_production platform fresh_reqUrl (handler_of [ok_fn])
           (fresh_request "GET") [("VERCEL_ENV", "production")]
           {| u_origin := "https://example.com"; u_path := "/api/inngest"; u_query := [] |});
    reflexivity.
Defined.

Lemma fresh_post_without_ids_throws_witness :
  exists input,
    snd (DenoFresh.createHandler platform fresh_reqUrl (handler_of [ok_fn])
           (fresh_request "POST") []) =
    Thrown (ZodError platform FreshQuerySchema input).
Proof.
  apply (fresh_post_without_ids_throws platform fresh_reqUrl (handler_of [ok_fn])
           (fresh_request "POST") []
           {| u_origin := "https://example.com"; u_path := "/api/inngest"; u_query := [] |}).
  - reflexivity.
  - reflexivity.
  - left. reflexivity.
Defined.

Lemma fresh_unresolved_url_witness :
  DenoFresh.createHandler platform fresh_reqUrl_failing (handler_of [ok_fn])
    (fresh_request "GET") [("INNGEST_SIGNING_KEY", "signkey-test-aa")] =
  (handler_of [ok_fn],
   Returned {| status := 500; headers := sdk_headers platform (handler_of [ok_fn]);
               body := json_text (JError "TypeError" "Invalid URL" None []) |}).
Proof.
  apply (fresh_unresolved_url platform fresh_reqUrl_failing (handler_of [ok_fn])
           (fresh_request "GET") [("INNGEST_SIGNING_KEY", "signkey-test-aa")]
           (JError "TypeError" "Invalid URL" None [])).
  - reflexivity.
  - vm_compute. discriminate.
Defined.

Lemma fresh_responses_carry_sdk_header_witness :
  header_get "x-inngest-sdk"
    (headers {| status := 405; headers := sdk_headers platform (handler_of [ok_fn]);
                body := None |}) =
    Some (sdkHeader_join platform (handler_of [ok_fn])) /\
  (DenoFresh.req_method (fresh_request "DELETE") <> "GET" ->
   DenoFresh.req_method (fresh_request "DELETE") <> "PUT" ->
   DenoFresh.req_method (fresh_request "DELETE") <> "POST" ->
   forall u,
     fresh_url fresh_reqUrl (handler_of [ok_fn]) (fresh_request "DELETE") = Returned u ->
     {| status := 405; headers := sdk_headers platform (handler_of [ok_fn]); body := None |} =
     {| status := 405; headers := sdk_headers platform (handler_of [ok_fn]); body := None |}).
Proof.
  apply (fresh_responses_carry_sdk_header platform fresh_reqUrl (handler_of [ok_fn])
           (fresh_request "DELETE") []
           {| status := 405; headers := sdk_headers platform (handler_of [ok_fn]);
              body := None |}).
  reflexivity.
Defined.

Lemma deserializeError_placeholder_witness :
  deserializeError platform identity_deserialize (JError "Error" "boom" None []) =
  could_not_reserialize.
Proof.
  apply (proj1 (deserializeError_placeholder platform identity_deserialize
                  (JError "Error" "boom" None []))).
  left. reflexivity.
Defined.

(** A serialized error has its own [name] and [message] and is handed to
    the library. *)
Example deserializeError_of_serialized :
  deserializeError platform identity_deserialize
    (JObj [("name", JStr "Error"); ("message", JStr "boom"); ("stack", JStr "");
           ("__serialized", JBool true)]) =
  JObj [("name", JStr "Error"); ("message", JStr "boom"); ("stack", JStr "");
        ("__serialized", JBool true)].
Proof. reflexivity. Qed.

Lemma landingPage_option_beats_env_witness :
  snd (handleAction platform (handler_with None (Some false) [ok_fn])
         (actions_of (view_action [("INNGEST_LANDING_PAGE", "true")] false false))) =
  Returned {| status := 405;
              headers := sdk_headers platform (handler_with None (Some false) [ok_fn]);
              body := Some "" |}.
Proof.
  apply (landingPage_option_beats_env platform (handler_with None (Some false) [ok_fn])
           (actions_of (view_action [("INNGEST_LANDING_PAGE", "true")] false false))
           {| view_env := [("INNGEST_LANDING_PAGE", "true")]; view_url := endpoint;
              view_isIntrospection := false; view_isProduction := false |} false);
    reflexivity.
Defined.

Lemma prettyError_drops_blank_fields_witness :
  Pretty.prettyError tags trim_spaces None
    {| Pretty.type := Some Pretty.type_warn; Pretty.whatHappened := " Something failed ";
       Pretty.reassurance := None; Pretty.why := Some "   "; Pretty.consequences := None;
       Pretty.toFixNow := None; Pretty.otherwise := None; Pretty.stack := false;
       Pretty.code := None |} =
  Pretty.prettyError tags trim_spaces None
    {| Pretty.type := Some Pretty.type_warn; Pretty.whatHappened := " Something failed ";
       Pretty.reassurance := None; Pretty.why := None; Pretty.consequences := None;
       Pretty.toFixNow := None; Pretty.otherwise := None; Pretty.stack := false;
       Pretty.code := None |}.
Proof.
  refine (proj1 (proj2 (prettyError_drops_blank_fields tags trim_spaces None
                         (Some Pretty.type_warn) " Something failed " None None None None
                         None false None "   " ["  "; ""] _ _))).
  - reflexivity.
  - repeat constructor.
Defined.

(** A message with two fix steps around a blank one. *)
Example prettyError_sample :
  Pretty.prettyError tags trim_spaces None
    {| Pretty.type := None; Pretty.whatHappened := " No event key ";
       Pretty.reassurance := None; Pretty.why := Some "The key is missing.";
       Pretty.consequences := None;
       Pretty.toFixNow := Some (inr [" Set the variable"; "  "; "Pass a key "]);
       Pretty.otherwise := None; Pretty.stack := false;
       Pretty.code := Some Pretty.NESTING_STEPS |} =
  "<red>" ++ Pretty.splitter ++ Pretty.nl ++ Pretty.nl ++
  Pretty.icon_error ++ "  <b>No event key</b>" ++ Pretty.nl ++ Pretty.nl ++
  "The key is missing." ++ Pretty.nl ++ Pretty.nl ++
  Pretty.fix_intro ++ Pretty.nl ++ Pretty.nl ++
  Pretty.tab ++ "1. Set the variable" ++ Pretty.nl ++
  Pretty.tab ++ "2. Pass a key" ++ Pretty.nl ++ Pretty.nl ++
  "Code: NESTING_STEPS" ++ Pretty.nl ++ Pretty.nl ++
  Pretty.splitter ++ "</red>".
Proof. reflexivity. Qed.
